(** * Agentic AIOps agent: the poll / detect / remediate control loop

    A shallow embedding of [agent/agent.py] and the properties of its
    control loop.

    - Python [str] values are byte strings ([string]); [str.lower] is the
      ASCII lowering, which agrees with Python's on every string whose
      lowering is compared with or searched for an ASCII word (no non-ASCII
      code point lowers to one of the letters of "cpu" or "true").
    - Python [float] is an interface ([PyFloat]): the loop only sums,
      divides by a length, compares and prints floats.
    - External calls (HTTP, Kubernetes, GitHub, clock) answer from an
      oracle record [world]; what the agent does to the outside is a trace
      of [event]s; Python exceptions are the [Raise] outcome of the monad
      [M]. *)

From Stdlib Require Import ZArith QArith String Ascii List Bool Lia.
From stdpp Require Import base option gmap strings list pretty.

Open Scope string_scope.
Open Scope Z_scope.
Open Scope list_scope.

(** ** Python string operations *)

Module PyStr.

(** [c.lower()] for one ASCII character. *)
Definition lower_ascii (c : ascii) : ascii :=
  let n := nat_of_ascii c in
  if (Nat.leb 65 n && Nat.leb n 90)%bool then ascii_of_nat (n + 32) else c.

(** [s.lower()]. *)
Fixpoint lower (s : string) : string :=
  match s with
  | EmptyString => EmptyString
  | String c s' => String (lower_ascii c) (lower s')
  end.

(** [needle in s]: [needle] starts at some position of [s]. *)
Fixpoint contains (needle s : string) : bool :=
  String.prefix needle s ||
  match s with
  | EmptyString => false
  | String _ s' => contains needle s'
  end.

(** [s[n:]]. *)
Fixpoint drop (n : nat) (s : string) : string :=
  match n, s with
  | O, _ => s
  | S _, EmptyString => EmptyString
  | S n', String _ s' => drop n' s'
  end.

(** [s.replace(old, new)] for a non-empty [old]: scan from the left, and at
    each position where [old] starts emit [new] and skip the occurrence.
    [skip] counts the characters of the current occurrence still to pass. *)
Fixpoint replace_from (old new : string) (skip : nat) (s : string) : string :=
  match s with
  | EmptyString => EmptyString
  | String c s' =>
      match skip with
      | S k => replace_from old new k s'
      | O =>
          if String.prefix old s
          then new +:+ replace_from old new (String.length old - 1) s'
          else String c (replace_from old new O s')
      end
  end.

Definition replace (old new s : string) : string := replace_from old new O s.

(** [s.split(sep)] for a non-empty [sep], with the piece read so far in
    [cur]. *)
Fixpoint split_from (sep : string) (skip : nat) (cur s : string) : list string :=
  match s with
  | EmptyString => [cur]
  | String c s' =>
      match skip with
      | S k => split_from sep k cur s'
      | O =>
          if String.prefix sep s
          then cur :: split_from sep (String.length sep - 1) EmptyString s'
          else split_from sep O (cur +:+ String c EmptyString) s'
      end
  end.

Definition split (sep s : string) : list string := split_from sep O EmptyString s.

(** [sep.join(l)]. *)
Definition join (sep : string) (l : list string) : string := String.concat sep l.

(** [s.rstrip("/")]: drop the trailing run of [c]. *)
Fixpoint rstrip (c : ascii) (s : string) : string :=
  match s with
  | EmptyString => EmptyString
  | String a s' =>
      match rstrip c s' with
      | EmptyString => if Ascii.eqb a c then EmptyString else String a EmptyString
      | r => String a r
      end
  end.

(** [str(b)] for a bool. *)
Definition of_bool (b : bool) : string := if b then "True" else "False".

(** Truth value of an optional string, as [if not X] reads an environment
    variable: [None] and [""] are false. *)
Definition truthy (o : option string) : bool :=
  match o with
  | None | Some EmptyString => false
  | Some _ => true
  end.

(** [repr(s)]: [s] between single quotes, or between double quotes when [s]
    has a single quote and no double quote; the quote in use, the backslash
    and the control characters are escaped.  The bytes of a non-ASCII
    character are kept, as [repr] keeps a printable character. *)
Definition backslash : ascii := ascii_of_nat 92.
Definition squote : ascii := ascii_of_nat 39.
Definition dquote : ascii := ascii_of_nat 34.

Definition hex_digit (n : nat) : ascii :=
  nth n (list_ascii_of_string "0123456789abcdef") "0"%char.

Definition escape_ascii (quote c : ascii) : string :=
  let n := nat_of_ascii c in
  let esc (a : ascii) := String backslash (String a EmptyString) in
  if (Ascii.eqb c quote || Ascii.eqb c backslash)%bool then esc c
  else if Nat.eqb n 9 then esc "t"%char
  else if Nat.eqb n 10 then esc "n"%char
  else if Nat.eqb n 13 then esc "r"%char
  else if (Nat.ltb n 32 || Nat.eqb n 127)%bool
  then String backslash
         (String "x" (String (hex_digit (n / 16)) (String (hex_digit (n mod 16)) EmptyString)))
  else String c EmptyString.

Fixpoint escape (quote : ascii) (s : string) : string :=
  match s with
  | EmptyString => EmptyString
  | String c s' => escape_ascii quote c +:+ escape quote s'
  end.

Definition repr (s : string) : string :=
  let quote :=
    if (contains (String squote EmptyString) s
        && negb (contains (String dquote EmptyString) s))%bool
    then dquote else squote in
  String quote (escape quote s +:+ String quote EmptyString).

End PyStr.

(** The double quote and the line feed, as strings. *)
Definition dq : string := String (ascii_of_nat 34) EmptyString.
Definition nl : string := String (ascii_of_nat 10) EmptyString.

(** ** Python floats

    The operations [agent.py] applies to [float] values.  [fsum] is the
    builtin [sum] over a list of floats, [fdiv_int x n] is [x / n] for an
    [int] [n], [fgt x y] is [x > y], [float_of_str] and [float_of_int] are
    [float(...)] on a [str] and on an [int] ([None] where Python raises
    [ValueError], resp. [OverflowError]), [frepr] is [str(x)].  The one law
    is that [>] is irreflexive, which IEEE 754 comparison satisfies (also at
    NaN). *)
Class PyFloat (F : Type) := {
  fzero : F;
  fsum : list F → F;
  fdiv_int : F → Z → F;
  fgt : F → F → bool;
  float_of_str : string → option F;
  float_of_int : Z → option F;
  frepr : F → string;
  fgt_irrefl : ∀ x, fgt x x = false
}.

(** ** Exceptions and outcomes *)

(** An instance of a subclass of Python's [Exception]; [exn_msg] is
    [str(e)]. *)
Record exn := Exn { exn_class : string; exn_msg : string }.

Inductive outcome (A : Type) : Type :=
| Return (a : A)
| Raise (e : exn).
Arguments Return {A} a.
Arguments Raise {A} e.

#[export] Instance outcome_ret : MRet outcome := λ A a, Return a.
#[export] Instance outcome_bind : MBind outcome := λ A B k m,
  match m with
  | Return a => k a
  | Raise e => Raise e
  end.

Definition is_return {A} (r : outcome A) : bool :=
  match r with Return _ => true | Raise _ => false end.

(** What [time.sleep(seconds)] does with an [int]: the interval is turned
    into a signed 64-bit count of nanoseconds, which raises [OverflowError]
    when it does not fit; a negative interval then raises [ValueError];
    otherwise the call waits and returns.  The wait itself is taken to
    return.  It does when the deadline, the uptime of the machine plus the
    interval, fits the count as well; the [OSError] of a deadline that does
    not fit is not modelled. *)
Definition sleep_outcome (seconds : Z) : outcome unit :=
  let ns := seconds * 1000000000 in
  if (ns <? - 9223372036854775808) || (9223372036854775807 <? ns)
  then Raise (Exn "OverflowError" "timestamp too large to convert to C _PyTime_t")
  else if seconds <? 0
  then Raise (Exn "ValueError" "sleep length must be non-negative")
  else Return tt.

(** The intervals the properties of the loop are stated for go up to 2^32
    seconds, some 136 years: their nanoseconds fit the count with room for
    the uptime of the machine. *)
Definition max_sleep : Z := 4294967296.

(** ** Values decoded from JSON *)

#[warnings="-register-all"]
Inductive json (F : Type) : Type :=
| JNull
| JBool (b : bool)
| JInt (z : Z)
| JFloat (f : F)
| JStr (s : string)
| JArr (l : list (json F))
| JObj (m : gmap string (json F)).
Arguments JNull {F}.
Arguments JBool {F} b.
Arguments JInt {F} z.
Arguments JFloat {F} f.
Arguments JStr {F} s.
Arguments JArr {F} l.
Arguments JObj {F} m.

Section PyValues.
Context {F : Type} `{PyFloat F}.

(** [obj.get(key, default)]: only a dict has [get]. *)
Definition py_get (obj : json F) (key : string) (dflt : json F) : outcome (json F) :=
  match obj with
  | JObj m => Return (default dflt (m !! key))
  | _ => Raise (Exn "AttributeError" "object has no attribute 'get'")
  end.

(** [obj[key]] for a [str] key. *)
Definition py_getitem_str (obj : json F) (key : string) : outcome (json F) :=
  match obj with
  | JObj m =>
      match m !! key with
      | Some v => Return v
      | None => Raise (Exn "KeyError" (PyStr.repr key))
      end
  | JArr _ => Raise (Exn "TypeError" "list indices must be integers or slices, not str")
  | JStr _ => Raise (Exn "TypeError" "string indices must be integers, not 'str'")
  | _ => Raise (Exn "TypeError" "object is not subscriptable")
  end.

(** [obj[i]] for an [int] index [i >= 0]; the keys of a decoded JSON object
    are strings, so an [int] is never one of them. *)
Definition py_getitem_int (obj : json F) (i : nat) : outcome (json F) :=
  match obj with
  | JArr l =>
      match l !! i with
      | Some v => Return v
      | None => Raise (Exn "IndexError" "list index out of range")
      end
  | JStr s =>
      match String.get i s with
      | Some c => Return (JStr (String c EmptyString))
      | None => Raise (Exn "IndexError" "string index out of range")
      end
  | JObj _ => Raise (Exn "KeyError" (pretty (Z.of_nat i)))
  | _ => Raise (Exn "TypeError" "object is not subscriptable")
  end.

(** The items a [for] loop over [obj] visits. *)
Definition py_iter (obj : json F) : outcome (list (json F)) :=
  match obj with
  | JArr l => Return l
  | JObj m => Return (JStr <$> (map_to_list m).*1)
  | JStr s => Return ((λ c, JStr (String c EmptyString)) <$> list_ascii_of_string s)
  | _ => Raise (Exn "TypeError" "object is not iterable")
  end.

(** [float(x)]. *)
Definition py_float (x : json F) : outcome F :=
  match x with
  | JFloat f => Return f
  | JInt z =>
      match float_of_int z with
      | Some f => Return f
      | None => Raise (Exn "OverflowError" "int too large to convert to float")
      end
  | JBool b =>
      match float_of_int (if b then 1 else 0) with
      | Some f => Return f
      | None => Raise (Exn "OverflowError" "int too large to convert to float")
      end
  | JStr s =>
      match float_of_str s with
      | Some f => Return f
      | None => Raise (Exn "ValueError" ("could not convert string to float: " +:+ PyStr.repr s))
      end
  | _ => Raise (Exn "TypeError" "float() argument must be a string or a real number")
  end.

End PyValues.

(** ** The outside world: configuration, oracle and trace *)

(** The module-level settings of [agent.py], read once at import. *)
Record config (F : Type) := Config {
  PROM_URL : option string;
  NAMESPACE : string;
  DEPLOYMENT_NAME : string;
  SLACK_WEBHOOK : option string;
  GITHUB_TOKEN : option string;
  GITHUB_REPO : option string;
  DRY_RUN : bool;
  AUTO_APPLY : bool;
  HELM_VALUES_PATH : string;
  IMAGE_REPO : string;
  CPU_THRESHOLD : F
}.
Arguments Config {F}.
Arguments PROM_URL {F} c.
Arguments NAMESPACE {F} c.
Arguments DEPLOYMENT_NAME {F} c.
Arguments SLACK_WEBHOOK {F} c.
Arguments GITHUB_TOKEN {F} c.
Arguments GITHUB_REPO {F} c.
Arguments DRY_RUN {F} c.
Arguments AUTO_APPLY {F} c.
Arguments HELM_VALUES_PATH {F} c.
Arguments IMAGE_REPO {F} c.
Arguments CPU_THRESHOLD {F} c.

(** A [requests] response: status code, body text, and what [.json()]
    gives. *)
Record response (F : Type) := Response {
  status_code : Z;
  resp_text : string;
  json_body : outcome (json F)
}.
Arguments Response {F}.
Arguments status_code {F} r.
Arguments resp_text {F} r.
Arguments json_body {F} r.

(** A [ContentFile] of the GitHub client; [decoded] is
    [decoded_content.decode()]. *)
Record content_file := ContentFile {
  path : string;
  sha : string;
  decoded : outcome string
}.

(** What the outside answers during one iteration of the loop: one field per
    call site of an external call. *)
Record world (F : Type) := World {
  utcnow_log : string;       (* datetime.utcnow().isoformat(), line 160 *)
  utcnow_action : string;    (* datetime.utcnow().isoformat(), line 165 *)
  utcnow_restart : string;   (* datetime.utcnow().isoformat(), line 100 *)
  utcnow_stamp : string;     (* datetime.utcnow().strftime("%Y%m%d%H%M%S") *)
  time_time : Z;             (* int(time.time()) *)
  requests_get : outcome (response F);
  requests_post : outcome (response F);
  load_kube_config : outcome unit;
  load_incluster_config : outcome unit;
  patch_namespaced_deployment : outcome unit;
  get_repo : outcome unit;
  get_branch : outcome string;          (* base.commit.sha *)
  create_git_ref : outcome unit;
  get_contents : outcome content_file;
  update_file : outcome unit;
  create_pull : outcome string          (* pr.html_url *)
}.
Arguments World {F}.
Arguments utcnow_log {F} w.
Arguments utcnow_action {F} w.
Arguments utcnow_restart {F} w.
Arguments utcnow_stamp {F} w.
Arguments time_time {F} w.
Arguments requests_get {F} w.
Arguments requests_post {F} w.
Arguments load_kube_config {F} w.
Arguments load_incluster_config {F} w.
Arguments patch_namespaced_deployment {F} w.
Arguments get_repo {F} w.
Arguments get_branch {F} w.
Arguments create_git_ref {F} w.
Arguments get_contents {F} w.
Arguments update_file {F} w.
Arguments create_pull {F} w.

(** The functions of [agent.py] that act on the outside. *)
Inductive fname :=
| f_post_slack
| f_query_prometheus
| f_get_average_cpu_for_deployment
| f_restart_deployment_k8s
| f_create_github_pr_update_helm
| f_log_action.

(** The object [log_action] dumps. *)
Inductive action_obj (F : Type) :=
| ActionPlan (timestamp deployment namespace : string) (avg_cpu : F)
    (plan : string) (prom_results : json F)
| ApplyResult (key : string) (ok : bool) (msg : string).
Arguments ActionPlan {F}.
Arguments ApplyResult {F}.

(** What one step of the agent does to the outside.  [Invoke f] marks the
    entry into the body of [f]; the others are the external calls, the lines
    printed and the calls of [time.sleep]. *)
Inductive event (F : Type) :=
| Invoke (f : fname)
| Stdout (line : string)
| StdoutAction (a : action_obj F)
| HttpGet (url query : string)
| HttpPost (url body : string)
| KubeLoadConfig
| KubeLoadIncluster
| KubePatch (name namespace stamp : string)
| GhGetRepo (repo : string)
| GhGetBranch (branch : string)
| GhCreateRef (ref base_sha : string)
| GhGetContents (file ref : string)
| GhUpdateFile (file message content file_sha branch : string)
| GhCreatePull (title body head base : string)
| Sleep (seconds : Z).
Arguments Invoke {F}.
Arguments Stdout {F}.
Arguments StdoutAction {F}.
Arguments HttpGet {F}.
Arguments HttpPost {F}.
Arguments KubeLoadConfig {F}.
Arguments KubeLoadIncluster {F}.
Arguments KubePatch {F}.
Arguments GhGetRepo {F}.
Arguments GhGetBranch {F}.
Arguments GhCreateRef {F}.
Arguments GhGetContents {F}.
Arguments GhUpdateFile {F}.
Arguments GhCreatePull {F}.
Arguments Sleep {F}.

(** ** The monad of agent code: read the oracle, append to the trace, raise *)

Definition M (F A : Type) : Type := world F → outcome A * list (event F).

#[export] Instance M_ret {F} : MRet (M F) := λ A a _, (Return a, []).
#[export] Instance M_bind {F} : MBind (M F) := λ A B k m w,
  match m w with
  | (Return a, t) => let '(r, t') := k a w in (r, t ++ t')
  | (Raise e, t) => (Raise e, t)
  end.

Section Effects.
Context {F : Type}.

(** [raise e]. *)
Definition raise {A} (e : exn) : M F A := λ _, (Raise e, []).

(** A pure computation that may raise. *)
Definition lift {A} (r : outcome A) : M F A := λ _, (r, []).

(** One event on the trace. *)
Definition emit (ev : event F) : M F unit := λ _, (Return tt, [ev]).

(** Read a field of the oracle. *)
Definition ask {A} (f : world F → A) : M F A := λ w, (Return (f w), []).

(** An external call: the request goes on the trace, the answer comes from
    the oracle. *)
Definition extcall {A} (ev : event F) (answer : world F → outcome A) : M F A :=
  λ w, (answer w, [ev]).

(** [try: body / except Exception as e: ...] with the exception reified. *)
Definition attempt {A} (body : M F A) : M F (outcome A) :=
  λ w, let '(r, t) := body w in (Return r, t).

(** [try: body / except Exception as e: handler e]. *)
Definition try_except {A} (body : M F A) (handler : exn → M F A) : M F A :=
  r ← attempt body;
  match r with
  | Return a => mret a
  | Raise e => handler e
  end.

(** [time.sleep(seconds)]: the call goes on the trace, and raises or waits
    as [sleep_outcome] tells. *)
Definition sleep (seconds : Z) : M F unit :=
  extcall (Sleep seconds) (λ _, sleep_outcome seconds).

(** [print(line)]. *)
Definition print (line : string) : M F unit := emit (Stdout line).

End Effects.

(** ** Reading traces *)

#[export] Instance fname_eq_dec : EqDecision fname.
Proof. solve_decision. Defined.

Section Traces.
Context {F : Type}.

Definition is_invoke (f : fname) (ev : event F) : bool :=
  match ev with
  | Invoke g => bool_decide (f = g)
  | _ => false
  end.

Definition is_http_post (ev : event F) : bool :=
  match ev with
  | HttpPost _ _ => true
  | _ => false
  end.

Definition is_http_get (ev : event F) : bool :=
  match ev with
  | HttpGet _ _ => true
  | _ => false
  end.

Definition is_sleep (ev : event F) : bool :=
  match ev with
  | Sleep _ => true
  | _ => false
  end.

(** How many events of a trace satisfy [p]. *)
Definition count (p : event F → bool) (t : list (event F)) : nat :=
  length (List.filter p t).

(** How often the body of [f] was entered. *)
Definition invocations (f : fname) (t : list (event F)) : nat :=
  count (is_invoke f) t.

(** The intervals [time.sleep] was called with, in order. *)
Definition sleeps (t : list (event F)) : list Z :=
  omap (λ ev, match ev with Sleep s => Some s | _ => None end) t.

(** The lines printed, in order. *)
Definition printed (t : list (event F)) : list string :=
  omap (λ ev, match ev with Stdout s => Some s | _ => None end) t.

(** Result and trace of a computation in a world. *)
Definition result_of {A} (m : M F A) (w : world F) : outcome A := (m w).1.
Definition trace_of {A} (m : M F A) (w : world F) : list (event F) := (m w).2.

(** [m] never lets an exception out. *)
Definition total {A} (m : M F A) : Prop :=
  ∀ w, ∃ a, result_of m w = Return a.

(** No event of [m] satisfies [p], in any world. *)
Definition silent {A} (p : event F → bool) (m : M F A) : Prop :=
  ∀ w, count p (trace_of m w) = 0%nat.

End Traces.

(** ** The agent *)

(** The plan lines of [simple_llm_reasoning]. *)
Definition cpu_plan : list string :=
  [ "Scale up replica count (increase replicas by 1 or 2)";
    "Restart pods of the deployment";
    "Check for hot loops / heavy GC in app logs";
    "If persists, create PR to bump resource limits or add HPA" ].

Definition generic_plan : list string :=
  [ "Investigate further, check logs and recent deployments" ].

(** [simple_llm_reasoning(issue_text)]: no call to the outside, no state. *)
Definition simple_llm_reasoning (issue_text : string) : string :=
  let plan :=
    if PyStr.contains "high cpu" (PyStr.lower issue_text)
       || PyStr.contains "cpu" (PyStr.lower issue_text)
    then cpu_plan
    else generic_plan in
  PyStr.join nl plan.

(** The placeholder the values file is searched for, [tag: "latest"], and
    what replaces it, [tag: "<new_tag>"]. *)
Definition tag_placeholder : string := "tag: " +:+ dq +:+ "latest" +:+ dq.
Definition tag_line (new_tag : string) : string := "tag: " +:+ dq +:+ new_tag +:+ dq.
Definition tag_comment (new_tag : string) : string :=
  nl +:+ "# agent update: tag " +:+ new_tag +:+ nl.

(** Lines 137-140 of [create_github_pr_update_helm]: the new content of the
    values file. *)
Definition helm_new_content (original new_tag : string) : string :=
  let new_content := PyStr.replace tag_placeholder (tag_line new_tag) original in
  if String.eqb new_content original
  then original +:+ tag_comment new_tag
  else new_content.

(** The query of line 57: per-pod CPU rate of the pods whose name starts with
    the deployment's. *)
Definition prom_query (deployment_name namespace : string) : string :=
  "sum by (pod) (rate(container_cpu_usage_seconds_total{namespace="
  +:+ dq +:+ namespace +:+ dq +:+ ",pod=~" +:+ dq +:+ deployment_name
  +:+ ".*" +:+ dq +:+ "}[1m]))".

Section Agent.
Context {F : Type} `{PyFloat F}.
Variable cfg : config F.

(** [log_action(action_obj)]. *)
Definition log_action (a : action_obj F) : M F unit :=
  emit (Invoke f_log_action) ;;
  emit (StdoutAction a).

Definition post_slack (text : string) : M F unit :=
  emit (Invoke f_post_slack) ;;
  if negb (PyStr.truthy (SLACK_WEBHOOK cfg)) then
    print ("Slack webhook not configured. Message: " +:+ text)
  else
    try_except
      (resp ← extcall (HttpPost (default "" (SLACK_WEBHOOK cfg)) text) requests_post;
       if 300 <=? status_code resp then
         print ("Slack post failed: " +:+ pretty (status_code resp) +:+ " "
                +:+ resp_text resp)
       else mret tt)
      (λ e, print ("Slack post exception: " +:+ exn_msg e)).

(** [r.raise_for_status()]: an [HTTPError] for a 4xx or 5xx status. *)
Definition raise_for_status (r : response F) : outcome unit :=
  if (400 <=? status_code r) && (status_code r <? 600)
  then Raise (Exn "HTTPError" (pretty (status_code r) +:+ " Error"))
  else Return tt.

Definition query_prometheus (query : string) : M F (json F) :=
  emit (Invoke f_query_prometheus) ;;
  if negb (PyStr.truthy (PROM_URL cfg)) then
    raise (Exn "RuntimeError" "PROMETHEUS_URL not configured")
  else
    let url := PyStr.rstrip "/" (default "" (PROM_URL cfg)) +:+ "/api/v1/query" in
    r ← extcall (HttpGet url query) requests_get;
    lift (raise_for_status r) ;;
    lift (json_body r).

(** The body of the [for r in results] loop: [float(r["value"][1])]. *)
Definition reading (r : json F) : outcome F :=
  v ← py_getitem_str r "value";
  x ← py_getitem_int v 1;
  py_float x.

(** Line 66: [sum(values) / len(values) if values else 0.0]. *)
Definition average (values : list F) : F :=
  match values with
  | [] => fzero
  | _ => fdiv_int (fsum values) (Z.of_nat (length values))
  end.

Definition get_average_cpu_for_deployment (deployment_name namespace : string)
  : M F (F * json F) :=
  emit (Invoke f_get_average_cpu_for_deployment) ;;
  let q := prom_query deployment_name namespace in
  try_except
    (data ← query_prometheus q;
     d ← lift (py_get data "data" (JObj ∅));
     results ← lift (py_get d "result" (JArr []));
     items ← lift (py_iter results);
     values ← lift (mapM reading items);
     mret (average values, results))
    (λ e, print ("Prom query error: " +:+ exn_msg e) ;;
          mret (fzero, JArr [])).

Definition restart_deployment_k8s (deployment_name namespace : string)
  : M F (bool * string) :=
  emit (Invoke f_restart_deployment_k8s) ;;
  early ← try_except
    (extcall KubeLoadConfig load_kube_config ;; mret None)
    (λ _, try_except
       (extcall KubeLoadIncluster load_incluster_config ;; mret None)
       (λ e, print ("Failed to load kube config: " +:+ exn_msg e) ;;
             mret (Some (false, exn_msg e))));
  match early with
  | Some r => mret r
  | None =>
      now ← ask utcnow_restart;
      try_except
        (extcall (KubePatch deployment_name namespace now) patch_namespaced_deployment ;;
         mret (true, "patched"))
        (λ e, mret (false, exn_msg e))
  end.

Definition create_github_pr_update_helm (new_tag : string) : M F (bool * string) :=
  emit (Invoke f_create_github_pr_update_helm) ;;
  if negb (PyStr.truthy (GITHUB_TOKEN cfg)) || negb (PyStr.truthy (GITHUB_REPO cfg)) then
    mret (false, "GitHub not configured")
  else
    extcall (GhGetRepo (default "" (GITHUB_REPO cfg))) get_repo ;;
    base_sha ← extcall (GhGetBranch "main") get_branch;
    now ← ask time_time;
    let branch_name :=
      "agent/update-image-" +:+ PyStr.replace "." "-" new_tag +:+ "-" +:+ pretty now in
    r ← attempt (extcall (GhCreateRef ("refs/heads/" +:+ branch_name) base_sha)
                   create_git_ref);
    match r with
    | Raise e => mret (false, "Failed create branch: " +:+ exn_msg e)
    | Return _ =>
    r ← attempt (extcall (GhGetContents (HELM_VALUES_PATH cfg) branch_name) get_contents);
    match r with
    | Raise e => mret (false, "Failed read helm values: " +:+ exn_msg e)
    | Return contents =>
    original ← lift (decoded contents);
    let new_content := helm_new_content original new_tag in
    r ← attempt (extcall (GhUpdateFile (path contents)
                            ("agent: bump image tag to " +:+ new_tag)
                            new_content (sha contents) branch_name)
                   update_file);
    match r with
    | Raise e => mret (false, "Failed update file: " +:+ exn_msg e)
    | Return _ =>
    r ← attempt (extcall (GhCreatePull ("agent: bump image tag to " +:+ new_tag)
                            "Automated update by Agentic AIOps" branch_name "main")
                   create_pull);
    match r with
    | Raise e => mret (false, "Failed create PR: " +:+ exn_msg e)
    | Return html_url => mret (true, "PR created: " +:+ html_url)
    end end end end.

(** [avg_cpu > CPU_THRESHOLD], the test of line 161. *)
Definition breach (avg_cpu : F) : bool := fgt avg_cpu (CPU_THRESHOLD cfg).

(** Lines 175-188: what is done about a breach. *)
Definition remediate : M F unit :=
  if DRY_RUN cfg then
    print "DRY_RUN enabled -> not applying changes."
  else if AUTO_APPLY cfg then
    '(ok, msg) ← restart_deployment_k8s (DEPLOYMENT_NAME cfg) (NAMESPACE cfg);
    print ("k8s restart result: " +:+ PyStr.of_bool ok +:+ " " +:+ msg) ;;
    log_action (ApplyResult "k8s_restart_ok" ok msg)
  else
    stamp ← ask utcnow_stamp;
    let new_tag := "agent-" +:+ stamp in
    '(ok, msg) ← create_github_pr_update_helm new_tag;
    print ("create pr result: " +:+ PyStr.of_bool ok +:+ " " +:+ msg) ;;
    log_action (ApplyResult "pr_ok" ok msg).

Definition issue_text_of (avg_cpu : F) : string :=
  "High CPU detected for " +:+ DEPLOYMENT_NAME cfg +:+ " in " +:+ NAMESPACE cfg
  +:+ ": avg_cpu=" +:+ frepr avg_cpu.

(** One turn of the [while True] loop of [main_loop]. *)
Definition main_loop_body (poll_interval : Z) : M F unit :=
  '(avg_cpu, results) ← get_average_cpu_for_deployment (DEPLOYMENT_NAME cfg) (NAMESPACE cfg);
  now ← ask utcnow_log;
  print ("[" +:+ now +:+ "] avg_cpu=" +:+ frepr avg_cpu
         +:+ " (threshold=" +:+ frepr (CPU_THRESHOLD cfg) +:+ ")") ;;
  if breach avg_cpu then
    let issue_text := issue_text_of avg_cpu in
    let plan := simple_llm_reasoning issue_text in
    stamp ← ask utcnow_action;
    log_action (ActionPlan stamp (DEPLOYMENT_NAME cfg) (NAMESPACE cfg) avg_cpu plan results) ;;
    post_slack (":rotating_light: *Agentic AIOps:* " +:+ issue_text +:+ nl
                +:+ "Plan:" +:+ nl +:+ plan) ;;
    remediate ;;
    sleep (poll_interval * 2)
  else
    sleep poll_interval.

(** [main_loop(poll_interval)] over the first [length ws] turns, the turn
    [i] answered by the [i]-th oracle.  [Return tt] means the loop is still
    running after them; an exception that leaves a turn ends the loop. *)
Fixpoint main_loop_turns (poll_interval : Z) (ws : list (world F))
  : outcome unit * list (event F) :=
  match ws with
  | [] => (Return tt, [])
  | w :: ws' =>
      match main_loop_body poll_interval w with
      | (Return _, t) =>
          let '(r, t') := main_loop_turns poll_interval ws' in (r, t ++ t')
      | (Raise e, t) => (Raise e, t)
      end
  end.

Definition main_loop (poll_interval : Z) (ws : list (world F))
  : outcome unit * list (event F) :=
  let '(r, t) := main_loop_turns poll_interval ws in
  (r, Stdout ("Starting Agentic AIOps agent (DRY_RUN=" +:+ PyStr.of_bool (DRY_RUN cfg)
              +:+ ", AUTO_APPLY=" +:+ PyStr.of_bool (AUTO_APPLY cfg) +:+ ")") :: t).

(** The average one turn samples in the world [w], and whether it is a
    breach. *)
Definition sampled (w : world F) : F :=
  match result_of (get_average_cpu_for_deployment (DEPLOYMENT_NAME cfg) (NAMESPACE cfg)) w with
  | Return (avg_cpu, _) => avg_cpu
  | Raise _ => fzero
  end.

Definition breach_in (w : world F) : bool := breach (sampled w).

End Agent.

(** ** Start-up: the module-level code of [agent.py] *)

Section Startup.
Context {F : Type} `{PyFloat F}.

(** [load_dotenv(path)]: the variables of the file are added to the
    environment, those already set keep their value.  [file] is the parsed
    content of [conf/example.env], empty when the file is absent. *)
Definition load_dotenv (file environ : gmap string string) : gmap string string :=
  environ ∪ file.

(** [os.getenv(key)] and [os.getenv(key, default)]. *)
Definition getenv (environ : gmap string string) (key : string) : option string :=
  environ !! key.
Definition getenv_or (environ : gmap string string) (key dflt : string) : string :=
  default dflt (environ !! key).

(** [os.getenv(key, default).lower() == "true"], lines 26 and 27. *)
Definition flag (environ : gmap string string) (key dflt : string) : bool :=
  String.eqb (PyStr.lower (getenv_or environ key dflt)) "true".

(** Lines 20-32.  The one statement that can raise is the [float(...)] of
    the threshold, whose message ends with the [repr] of the value. *)
Definition load_config (environ : gmap string string) : outcome (config F) :=
  match float_of_str (getenv_or environ "CPU_THRESHOLD" "0.5") with
  | None =>
      Raise (Exn "ValueError"
               ("could not convert string to float: "
                +:+ PyStr.repr (getenv_or environ "CPU_THRESHOLD" "0.5")))
  | Some threshold =>
      Return {|
        PROM_URL := getenv environ "PROMETHEUS_URL";
        NAMESPACE := getenv_or environ "NAMESPACE" "default";
        DEPLOYMENT_NAME := getenv_or environ "DEPLOYMENT_NAME" "myapp";
        SLACK_WEBHOOK := getenv environ "SLACK_WEBHOOK_URL";
        GITHUB_TOKEN := getenv environ "GITHUB_TOKEN";
        GITHUB_REPO := getenv environ "GITHUB_REPO";
        DRY_RUN := flag environ "DRY_RUN" "true";
        AUTO_APPLY := flag environ "AUTO_APPLY" "false";
        HELM_VALUES_PATH := getenv_or environ "HELM_VALUES_PATH" "helm-chart/myapp/values.yaml";
        IMAGE_REPO := getenv_or environ "IMAGE_REPOSITORY" "myapp";
        CPU_THRESHOLD := threshold
      |}
  end.

(** The process: import the module, then [main_loop()] with its default
    interval of 30 seconds, observed over the turns [ws].  The handler of
    [KeyboardInterrupt] around [main_loop()] has no part here: the interrupt
    is no [Exception] and comes from outside the program. *)
Definition agent_process (file environ : gmap string string) (ws : list (world F))
  : outcome unit * list (event F) :=
  match load_config (load_dotenv file environ) with
  | Raise e => (Raise e, [])
  | Return cfg => main_loop cfg 30 ws
  end.

End Startup.

(** ** What the properties observe *)

Section Observations.
Context {F : Type}.
Variable cfg : config F.
Implicit Types (w : world F).

(** [create_github_pr_update_helm] leaves three calls outside its [try]
    blocks: the repository lookup, the read of the base branch and the
    decoding of the values file.  This holds when those of them that the run
    reaches all answer. *)
Definition propose_unguarded_ok w : bool :=
  negb (PyStr.truthy (GITHUB_TOKEN cfg)) || negb (PyStr.truthy (GITHUB_REPO cfg)) ||
  (is_return (get_repo w) && is_return (get_branch w) &&
   (negb (is_return (create_git_ref w)) ||
    match get_contents w with
    | Return contents => is_return (decoded contents)
    | Raise _ => true
    end)).

(** What a delivery logs, by the answer of the webhook: the exception of a
    failed request, or a status of 300 or more. *)
Definition slack_log (answer : outcome (response F)) : list string :=
  match answer with
  | Raise e => ["Slack post exception: " +:+ exn_msg e]
  | Return resp =>
      if 300 <=? status_code resp
      then ["Slack post failed: " +:+ pretty (status_code resp) +:+ " " +:+ resp_text resp]
      else []
  end.

End Observations.

(** A tag with each "." turned into "-" and every other character kept in
    its place: what the text of a branch name says of its tag part. *)
Fixpoint dots_to_dashes (tag : string) : string :=
  match tag with
  | EmptyString => EmptyString
  | String c tag' =>
      String (if Ascii.eqb c "." then "-"%char else c) (dots_to_dashes tag')
  end.

Section ProposeChange.
Context {F : Type} `{PyFloat F}.
Variable cfg : config F.
Variable new_tag : string.
Variable w : world F.

(** The branch the change is made on, and the four guarded calls. *)
Definition branch_name : string :=
  "agent/update-image-" +:+ PyStr.replace "." "-" new_tag +:+ "-" +:+ pretty (time_time w).

Definition call_create_ref (base_sha : string) : event F :=
  GhCreateRef ("refs/heads/" +:+ branch_name) base_sha.

Definition call_get_contents : event F :=
  GhGetContents (HELM_VALUES_PATH cfg) branch_name.

Definition call_update_file (contents : content_file) (original : string) : event F :=
  GhUpdateFile (path contents) ("agent: bump image tag to " +:+ new_tag)
    (helm_new_content original new_tag) (sha contents) branch_name.

Definition call_create_pull : event F :=
  GhCreatePull ("agent: bump image tag to " +:+ new_tag)
    "Automated update by Agentic AIOps" branch_name "main".

(** The calls made before the first guarded one. *)
Definition calls_before : list (event F) :=
  [Invoke f_create_github_pr_update_helm;
   GhGetRepo (default "" (GITHUB_REPO cfg));
   GhGetBranch "main"].

End ProposeChange.

Definition placeholder_tail : string := "ag: " +:+ dq +:+ "latest" +:+ dq.

(** [old] does not start in the part [cur] of [cur ++ s]. *)
Definition starts_clear (old cur s : string) : Prop :=
  ∀ a b, cur = a +:+ b → b ≠ EmptyString → String.prefix old (b +:+ s) = false.

(** ** An exact model of the float interface

    Rationals with exact arithmetic, to run the agent on examples: [sum]
    adds from the left starting at 0, [float] reads plain decimal literals,
    and a value prints as its reduced fraction. *)

Module QFloat.

Definition is_digit (c : ascii) : bool :=
  (Nat.leb 48 (nat_of_ascii c) && Nat.leb (nat_of_ascii c) 57)%bool.

Definition digit (c : ascii) : Z := Z.of_nat (nat_of_ascii c - 48).

Fixpoint parse_dec (s : string) (num : Z) (den : positive) (dot any : bool) : option Q :=
  match s with
  | EmptyString => if any then Some (Qred (num # den)) else None
  | String c s' =>
      if is_digit c
      then parse_dec s' (10 * num + digit c) (if dot then 10 * den else den)%positive dot true
      else if (Ascii.eqb c "." && negb dot)%bool then parse_dec s' num den true any
      else None
  end.

Definition of_str (s : string) : option Q :=
  match s with
  | String "-" s' => Qopp <$> parse_dec s' 0 1 false false
  | _ => parse_dec s 0 1 false false
  end.

Definition gt (x y : Q) : bool := negb (Qle_bool x y).

Definition repr (x : Q) : string :=
  pretty (Qnum (Qred x)) +:+ "/" +:+ pretty (Zpos (Qden (Qred x))).

#[global] Instance Q_float : PyFloat Q := {|
  fzero := 0%Q;
  fsum := λ l, Qred (fold_left Qplus l 0%Q);
  fdiv_int := λ x n, Qred (x / inject_Z n);
  fgt := gt;
  float_of_str := of_str;
  float_of_int := λ z, Some (inject_Z z);
  frepr := repr;
  fgt_irrefl := λ x,
    proj2 (negb_false_iff (Qle_bool x x)) (proj2 (Qle_bool_iff x x) (Qle_refl x))
|}.

End QFloat.

(** ** A deployment to run the agent on *)

Module Demo.

(** Configuration with the defaults of [agent.py], a threshold of 0.5 cores,
    and every integration configured. *)
Definition cfg (dry_run auto_apply : bool) : config Q := {|
  PROM_URL := Some "http://prometheus:9090/";
  NAMESPACE := "default";
  DEPLOYMENT_NAME := "myapp";
  SLACK_WEBHOOK := Some "https://hooks.example/services/T0";
  GITHUB_TOKEN := Some "token";
  GITHUB_REPO := Some "acme/infra";
  DRY_RUN := dry_run;
  AUTO_APPLY := auto_apply;
  HELM_VALUES_PATH := "helm-chart/myapp/values.yaml";
  IMAGE_REPO := "myapp";
  CPU_THRESHOLD := 1 # 2
|}.

(** The same with no metric source address and no webhook. *)
Definition cfg_bare : config Q := {|
  PROM_URL := None;
  NAMESPACE := "default";
  DEPLOYMENT_NAME := "myapp";
  SLACK_WEBHOOK := None;
  GITHUB_TOKEN := None;
  GITHUB_REPO := None;
  DRY_RUN := true;
  AUTO_APPLY := false;
  HELM_VALUES_PATH := "helm-chart/myapp/values.yaml";
  IMAGE_REPO := "myapp";
  CPU_THRESHOLD := 1 # 2
|}.

(** One series of an instant vector: [{"metric": {"pod": pod}, "value": [ts, v]}]. *)
Definition series (pod v : string) : json Q :=
  JObj (list_to_map
    [ ("metric", JObj (list_to_map [("pod", JStr pod)]));
      ("value", JArr [JInt 1700000000; JStr v]) ]).

(** The answer of the query endpoint carrying the series [l]. *)
Definition vector (l : list (json Q)) : outcome (response Q) :=
  Return (Response 200 EmptyString
    (Return (JObj (list_to_map
       [ ("status", JStr "success");
         ("data", JObj (list_to_map
            [ ("resultType", JStr "vector"); ("result", JArr l) ])) ])))).

(** A webhook answer with the given status. *)
Definition hook (status : Z) : outcome (response Q) :=
  Return (Response status "ok" (Raise (Exn "JSONDecodeError" "Expecting value"))).

Definition values_yaml : string :=
  "image:" +:+ nl +:+ "  repository: myapp" +:+ nl +:+ "  " +:+ tag_placeholder +:+ nl.

Definition values_file (content : string) : outcome content_file :=
  Return (ContentFile "helm-chart/myapp/values.yaml" "9fceb02" (Return content)).

Definition down : exn := Exn "ConnectionError" "connection refused".

(** A world given by the answers that the examples vary; the clock is
    fixed and the cluster accepts the in-cluster credentials and the patch. *)
Definition world_of (get post : outcome (response Q))
    (repo : outcome unit) (branch : outcome string) (ref : outcome unit)
    (contents : outcome content_file) (upd : outcome unit) (pull : outcome string)
  : world Q := {|
  utcnow_log := "2024-05-01T12:00:00.000001";
  utcnow_action := "2024-05-01T12:00:00.000002";
  utcnow_restart := "2024-05-01T12:00:00.000003";
  utcnow_stamp := "20240501120000";
  time_time := 1714564800;
  requests_get := get;
  requests_post := post;
  load_kube_config := Raise (Exn "ConfigException" "Invalid kube-config file");
  load_incluster_config := Return tt;
  patch_namespaced_deployment := Return tt;
  get_repo := repo;
  get_branch := branch;
  create_git_ref := ref;
  get_contents := contents;
  update_file := upd;
  create_pull := pull
|}.

(** Everything answers; the pods average 0.4, resp. 0.6 cores. *)
Definition calm : world Q :=
  world_of (vector [series "myapp-7d9f-abcde" "0.3"; series "myapp-7d9f-fghij" "0.5"])
    (hook 200) (Return tt) (Return "4b825dc") (Return tt)
    (values_file values_yaml) (Return tt) (Return "https://git.example/acme/infra/pull/7").

Definition hot : world Q :=
  world_of (vector [series "myapp-7d9f-abcde" "0.5"; series "myapp-7d9f-fghij" "0.7"])
    (hook 200) (Return tt) (Return "4b825dc") (Return tt)
    (values_file values_yaml) (Return tt) (Return "https://git.example/acme/infra/pull/7").

(** As [hot], with the repository lookup failing. *)
Definition hot_no_repo : world Q :=
  world_of (vector [series "myapp-7d9f-abcde" "0.5"; series "myapp-7d9f-fghij" "0.7"])
    (hook 200) (Raise (Exn "UnknownObjectException" "404 Not Found"))
    (Return "4b825dc") (Return tt)
    (values_file values_yaml) (Return tt) (Return "https://git.example/acme/infra/pull/7").

End Demo.

(** ** More to observe on a trace *)

Section MoreTraces.
Context {F : Type}.

(** The calls to the Kubernetes client. *)
Definition is_kube (ev : event F) : bool :=
  match ev with
  | KubeLoadConfig | KubeLoadIncluster | KubePatch _ _ _ => true
  | _ => false
  end.

(** The calls to the GitHub client. *)
Definition is_github (ev : event F) : bool :=
  match ev with
  | GhGetRepo _ | GhGetBranch _ | GhCreateRef _ _ | GhGetContents _ _
  | GhUpdateFile _ _ _ _ _ | GhCreatePull _ _ _ _ => true
  | _ => false
  end.

Definition is_stdout (ev : event F) : bool :=
  match ev with
  | Stdout _ => true
  | _ => false
  end.

(** The credential loads of [restart_deployment_k8s]: the local file first,
    the in-cluster credentials only when that fails. *)
Definition config_calls (w : world F) : list (event F) :=
  KubeLoadConfig ::
  match load_kube_config w with
  | Return _ => []
  | Raise _ => [KubeLoadIncluster]
  end.

(** The sleep a turn ends with. *)
Definition turn_sleep `{PyFloat F} (cfg : config F) (poll : Z) (w : world F) : Z :=
  if breach_in cfg w then poll * 2 else poll.

End MoreTraces.

(** What the [try] block of the sampler comes to in the world [w]: the
    average and the series, or the exception that ends it. *)
Definition sample_try {F} `{PyFloat F} (cfg : config F) (dn ns : string) (w : world F)
  : outcome (F * json F) :=
  data ← result_of (query_prometheus cfg (prom_query dn ns)) w;
  d ← py_get data "data" (JObj ∅);
  results ← py_get d "result" (JArr []);
  items ← py_iter results;
  values ← mapM reading items;
  mret (average values, results).



(** * Properties *)

Example lower_mixed : PyStr.lower "High CPU: 0.6" = "high cpu: 0.6".
Proof. reflexivity. Qed.

Example replace_twice :
  PyStr.replace "ab" "X" "abcabab." = "XcXX.".
Proof. reflexivity. Qed.

Example split_twice :
  PyStr.split "ab" "abcabab." = [""; "c"; ""; "."].
Proof. reflexivity. Qed.

Example rstrip_slashes : PyStr.rstrip "/" "http://prom:9090//" = "http://prom:9090".
Proof. reflexivity. Qed.

Example demo_calm_sample : sampled (Demo.cfg true false) Demo.calm = 2 # 5.
Proof. vm_compute. reflexivity. Qed.

Example demo_hot_sample : sampled (Demo.cfg true false) Demo.hot = 3 # 5.
Proof. vm_compute. reflexivity. Qed.

Example negative_interval_ends_loop :
  main_loop_turns (Demo.cfg true true) (-5) [Demo.calm; Demo.calm]
  = (Raise (Exn "ValueError" "sleep length must be non-negative"),
     trace_of (main_loop_body (Demo.cfg true true) (-5)) Demo.calm).
Proof. reflexivity. Qed.

Example demo_hot_breach : breach_in (Demo.cfg true false) Demo.hot = true.
Proof. vm_compute. reflexivity. Qed.

Example demo_hot_dry_run_prints :
  printed (trace_of (main_loop_body (Demo.cfg true false) 30) Demo.hot)
  = [ "[2024-05-01T12:00:00.000001] avg_cpu=3/5 (threshold=1/2)";
      "DRY_RUN enabled -> not applying changes." ].
Proof. vm_compute. reflexivity. Qed.

(** ** Facts about strings *)

Section StringFacts.
Implicit Types (s p r a b : string) (c : ascii).

Lemma str_app_cons c a b : String c a +:+ b = String c (a +:+ b).
Proof. reflexivity. Qed.

Lemma str_app_nil_l s : EmptyString +:+ s = s.
Proof. reflexivity. Qed.

Lemma str_app_nil_r s : s +:+ EmptyString = s.
Proof. induction s as [|c s IH]; [reflexivity|]. rewrite str_app_cons, IH. reflexivity. Qed.

Lemma str_app_assoc a b s : (a +:+ b) +:+ s = a +:+ (b +:+ s).
Proof.
  induction a as [|c a IH]; [reflexivity|]. rewrite !str_app_cons, IH. reflexivity.
Qed.

Lemma str_length_app a b :
  String.length (a +:+ b) = (String.length a + String.length b)%nat.
Proof.
  induction a as [|c a IH]; [reflexivity|].
  rewrite str_app_cons. simpl. rewrite IH. reflexivity.
Qed.

Lemma prefix_nil s : String.prefix EmptyString s = true.
Proof. destruct s; reflexivity. Qed.

Lemma prefix_cons c p c' s :
  String.prefix (String c p) (String c' s)
  = if ascii_dec c c' then String.prefix p s else false.
Proof. reflexivity. Qed.

(** [p] is a prefix of [s] when [s] is [p] followed by something. *)
Lemma prefix_iff p s : String.prefix p s = true ↔ ∃ r, s = p +:+ r.
Proof.
  revert s. induction p as [|c p IH]; intros s.
  - rewrite prefix_nil. split; [intros _; exists s; reflexivity | reflexivity].
  - destruct s as [|c' s].
    + split; [discriminate | intros [r Hr]; discriminate].
    + rewrite prefix_cons. destruct (ascii_dec c c') as [<-|Hne].
      * rewrite IH. split; intros [r Hr]; exists r.
        -- rewrite str_app_cons, Hr. reflexivity.
        -- rewrite str_app_cons in Hr. congruence.
      * split; [discriminate|]. intros [r Hr]. rewrite str_app_cons in Hr. congruence.
Qed.

Lemma contains_nil needle :
  PyStr.contains needle EmptyString = String.prefix needle EmptyString.
Proof. unfold PyStr.contains. apply orb_false_r. Qed.

Lemma contains_cons needle c s :
  PyStr.contains needle (String c s)
  = String.prefix needle (String c s) || PyStr.contains needle s.
Proof. reflexivity. Qed.

(** [needle in s] when [s] is [needle] between two strings. *)
Lemma contains_iff needle s :
  PyStr.contains needle s = true ↔ ∃ a b, s = a +:+ needle +:+ b.
Proof.
  induction s as [|c s IH].
  - rewrite contains_nil, prefix_iff. split.
    + intros [r Hr]. exists EmptyString, r. exact Hr.
    + intros (a & b & Hs). destruct a; [exists b; exact Hs|discriminate].
  - rewrite contains_cons, orb_true_iff, prefix_iff, IH. split.
    + intros [[r Hr]|(a & b & Hs)].
      * exists EmptyString, r. exact Hr.
      * exists (String c a), b. rewrite str_app_cons, Hs. reflexivity.
    + intros (a & b & Hs). destruct a as [|c' a].
      * left. exists b. exact Hs.
      * right. exists a, b. rewrite str_app_cons in Hs. congruence.
Qed.

Lemma contains_false_iff needle s :
  PyStr.contains needle s = false ↔ ¬ ∃ a b, s = a +:+ needle +:+ b.
Proof. rewrite <- contains_iff. destruct (PyStr.contains needle s); split; congruence. Qed.

(** A string that contains [a ++ needle] contains [needle]. *)
Lemma contains_weaken a needle s :
  PyStr.contains (a +:+ needle) s = true → PyStr.contains needle s = true.
Proof.
  rewrite !contains_iff. intros (x & y & Hs).
  exists (x +:+ a), y. rewrite Hs, !str_app_assoc. reflexivity.
Qed.

Lemma lower_app a b : PyStr.lower (a +:+ b) = PyStr.lower a +:+ PyStr.lower b.
Proof.
  induction a as [|c a IH]; [reflexivity|].
  rewrite str_app_cons. simpl. rewrite IH. reflexivity.
Qed.

End StringFacts.

(** ** Facts about [replace] and [split] *)

Section ReplaceFacts.
Variables (o : ascii) (old' : string).
Let old : string := String o old'.
Implicit Types (s r cur new a b : string) (c : ascii) (k : nat).

Lemma drop_app_length a r : PyStr.drop (String.length a) (a +:+ r) = r.
Proof. induction a as [|c a IH]; [reflexivity | exact IH]. Qed.

Lemma drop_length_lt c s k :
  (String.length (PyStr.drop k s) < String.length (String c s))%nat.
Proof.
  revert k. induction s as [|c' s IH]; intros [|k]; simpl; try lia.
  specialize (IH k). simpl in IH. lia.
Qed.

Lemma replace_from_skip new k s :
  PyStr.replace_from old new k s = PyStr.replace_from old new 0 (PyStr.drop k s).
Proof.
  revert k. induction s as [|c s IH]; intros [|k]; try reflexivity.
  exact (IH k).
Qed.

Lemma split_from_skip k cur s :
  PyStr.split_from old k cur s = PyStr.split_from old 0 cur (PyStr.drop k s).
Proof.
  revert k. induction s as [|c s IH]; intros [|k]; try reflexivity.
  exact (IH k).
Qed.

(** The three cases of a scan step. *)
Lemma replace_nil new : PyStr.replace old new EmptyString = EmptyString.
Proof. reflexivity. Qed.

Lemma replace_match new s :
  String.prefix old s = true →
  PyStr.replace old new s
  = new +:+ PyStr.replace old new (PyStr.drop (String.length old) s).
Proof.
  intros Hp. destruct s as [|c s]; [discriminate|].
  unfold PyStr.replace. cbn [PyStr.replace_from]. rewrite Hp.
  rewrite replace_from_skip. unfold old. cbn [String.length PyStr.drop Nat.sub].
  rewrite Nat.sub_0_r. reflexivity.
Qed.

Lemma replace_skip_char new c s :
  String.prefix old (String c s) = false →
  PyStr.replace old new (String c s) = String c (PyStr.replace old new s).
Proof.
  intros Hp. unfold PyStr.replace. cbn [PyStr.replace_from]. rewrite Hp. reflexivity.
Qed.

Lemma split_from_nil cur : PyStr.split_from old 0 cur EmptyString = [cur].
Proof. reflexivity. Qed.

Lemma split_from_match cur s :
  String.prefix old s = true →
  PyStr.split_from old 0 cur s
  = cur :: PyStr.split_from old 0 EmptyString (PyStr.drop (String.length old) s).
Proof.
  intros Hp. destruct s as [|c s]; [discriminate|].
  cbn [PyStr.split_from]. rewrite Hp.
  rewrite split_from_skip. unfold old. cbn [String.length PyStr.drop Nat.sub].
  rewrite Nat.sub_0_r. reflexivity.
Qed.

Lemma split_from_skip_char cur c s :
  String.prefix old (String c s) = false →
  PyStr.split_from old 0 cur (String c s)
  = PyStr.split_from old 0 (cur +:+ String c EmptyString) s.
Proof. intros Hp. cbn [PyStr.split_from]. rewrite Hp. reflexivity. Qed.

Lemma split_from_nonempty cur s : PyStr.split_from old 0 cur s ≠ [].
Proof.
  revert cur. induction s as [|c s IH]; intros cur; [discriminate|].
  destruct (String.prefix old (String c s)) eqn:Hp.
  - rewrite (split_from_match _ _ Hp). discriminate.
  - rewrite (split_from_skip_char _ _ _ Hp). apply IH.
Qed.

Lemma join_cons sep x l :
  l ≠ [] → PyStr.join sep (x :: l) = x +:+ sep +:+ PyStr.join sep l.
Proof. destruct l; [congruence | reflexivity]. Qed.

(** Induction on a string along the scan: past a whole occurrence, or past
    one character. *)
Lemma scan_ind (P : string → Prop) :
  P EmptyString →
  (∀ s, String.prefix old s = true → P (PyStr.drop (String.length old) s) → P s) →
  (∀ c s, String.prefix old (String c s) = false → P s → P (String c s)) →
  ∀ s, P s.
Proof.
  intros Hnil Hmatch Hchar s.
  remember (String.length s) as n eqn:Hn. revert s Hn.
  induction n as [n IH] using lt_wf_ind. intros s ->.
  destruct s as [|c s]; [exact Hnil|].
  destruct (String.prefix old (String c s)) eqn:Hp.
  - apply Hmatch; [exact Hp|].
    eapply IH; [|reflexivity]. unfold old. cbn [String.length PyStr.drop].
    exact (drop_length_lt c s _).
  - apply Hchar; [exact Hp|]. eapply IH; [|reflexivity]. simpl. lia.
Qed.

(** [s.replace(old, new)] is [new.join(s.split(old))]. *)
Lemma join_split_from new s :
  ∀ cur, PyStr.join new (PyStr.split_from old 0 cur s) = cur +:+ PyStr.replace old new s.
Proof.
  induction s as [|s Hp IH|c s Hp IH] using scan_ind; intros cur.
  - rewrite split_from_nil, replace_nil, str_app_nil_r. reflexivity.
  - rewrite (split_from_match _ _ Hp), (replace_match _ _ Hp).
    rewrite join_cons by apply split_from_nonempty. rewrite IH. reflexivity.
  - rewrite (split_from_skip_char _ _ _ Hp), (replace_skip_char _ _ _ Hp), IH.
    rewrite str_app_assoc. reflexivity.
Qed.

Lemma replace_join_split new s :
  PyStr.replace old new s = PyStr.join new (PyStr.split old s).
Proof. unfold PyStr.split. rewrite join_split_from. reflexivity. Qed.

(** Replacing [old] by itself changes nothing. *)
Lemma replace_self s : PyStr.replace old old s = s.
Proof.
  induction s as [|s Hp IH|c s Hp IH] using scan_ind.
  - reflexivity.
  - rewrite (replace_match _ _ Hp), IH.
    apply prefix_iff in Hp as [r ->]. rewrite drop_app_length. reflexivity.
  - rewrite (replace_skip_char _ _ _ Hp), IH. reflexivity.
Qed.

(** [old.join(s.split(old))] is [s]. *)
Lemma join_split s : PyStr.join old (PyStr.split old s) = s.
Proof. rewrite <- replace_join_split. apply replace_self. Qed.

(** Where [old] does not occur, nothing is replaced and nothing is split. *)
Lemma replace_absent new s :
  PyStr.contains old s = false → PyStr.replace old new s = s.
Proof.
  induction s as [|c s IH]; [reflexivity|].
  rewrite contains_cons, orb_false_iff. intros [Hp Hc].
  rewrite (replace_skip_char _ _ _ Hp), (IH Hc). reflexivity.
Qed.

End ReplaceFacts.

Section SplitFacts.
Variables (o : ascii) (old' : string).
Local Abbreviation old := (String o old').
Implicit Types (s r cur a b : string) (c : ascii) (l : list string).

Lemma starts_clear_nil s : starts_clear old EmptyString s.
Proof.
  intros a b Hab Hb. destruct a; [|discriminate].
  rewrite str_app_nil_l in Hab. congruence.
Qed.

Lemma starts_clear_contains cur s :
  starts_clear old cur s → PyStr.contains old cur = false.
Proof.
  intros Hclear. apply contains_false_iff. intros (a & b & Hcur).
  specialize (Hclear a (old +:+ b) Hcur ltac:(discriminate)).
  assert (Hp : String.prefix old ((old +:+ b) +:+ s) = true).
  { apply prefix_iff. exists (b +:+ s). apply str_app_assoc. }
  congruence.
Qed.

Lemma snoc_split cur c a b :
  cur +:+ String c EmptyString = a +:+ b → b ≠ EmptyString →
  ∃ b', b = b' +:+ String c EmptyString ∧ cur = a +:+ b'.
Proof.
  revert cur. induction a as [|x a IH]; intros cur Heq Hb.
  - exists cur. split; [symmetry; exact Heq | reflexivity].
  - destruct cur as [|y cur].
    + rewrite str_app_cons in Heq. injection Heq as _ Heq.
      destruct a; [rewrite str_app_nil_l in Heq; congruence | discriminate].
    + rewrite !str_app_cons in Heq. injection Heq as <- Heq.
      destruct (IH cur Heq Hb) as (b' & -> & ->).
      exists b'. split; reflexivity.
Qed.

Lemma starts_clear_snoc cur c s :
  starts_clear old cur (String c s) →
  String.prefix old (String c s) = false →
  starts_clear old (cur +:+ String c EmptyString) s.
Proof.
  intros Hclear Hp a b Hab Hb.
  destruct (snoc_split _ _ _ _ Hab Hb) as (b' & -> & ->).
  rewrite str_app_assoc. change (String c EmptyString +:+ s) with (String c s).
  destruct b' as [|x b']; [exact Hp|].
  apply (Hclear a (String x b')); [reflexivity | discriminate].
Qed.

Lemma split_from_free s :
  ∀ cur, starts_clear old cur s →
  Forall (λ piece, PyStr.contains old piece = false) (PyStr.split_from old 0 cur s).
Proof.
  induction s as [|s Hp IH|c s Hp IH] using (scan_ind o old'); intros cur Hclear.
  - rewrite split_from_nil. constructor; [|constructor].
    exact (starts_clear_contains _ _ Hclear).
  - rewrite (split_from_match _ _ _ _ Hp). constructor.
    + exact (starts_clear_contains _ _ Hclear).
    + apply IH, starts_clear_nil.
  - rewrite (split_from_skip_char _ _ _ _ _ Hp).
    apply IH, starts_clear_snoc; assumption.
Qed.

(** No piece of [s.split(old)] contains [old]. *)
Lemma split_free s :
  Forall (λ piece, PyStr.contains old piece = false) (PyStr.split old s).
Proof. apply split_from_free, starts_clear_nil. Qed.

(** An occurrence of [old] gives at least two pieces. *)
Lemma split_from_occurs s :
  ∀ cur, PyStr.contains old s = true →
  (2 ≤ length (PyStr.split_from old 0 cur s))%nat.
Proof.
  induction s as [|s Hp IH|c s Hp IH] using (scan_ind o old'); intros cur Hc.
  - discriminate.
  - rewrite (split_from_match _ _ _ _ Hp). simpl.
    pose proof (split_from_nonempty o old' EmptyString
                  (PyStr.drop (String.length old) s)) as Hne.
    destruct (PyStr.split_from _ _ _ _); [congruence | simpl; lia].
  - rewrite (split_from_skip_char _ _ _ _ _ Hp). apply IH.
    rewrite contains_cons, Hp in Hc. exact Hc.
Qed.

Lemma split_occurs s :
  PyStr.contains old s = true → (2 ≤ length (PyStr.split old s))%nat.
Proof. apply split_from_occurs. Qed.

End SplitFacts.

Section JoinFacts.
Implicit Types (s a b x y sep : string) (l : list string).

Lemma join_length sep l :
  String.length (PyStr.join sep l)
  = (list_sum (String.length <$> l) + (length l - 1) * String.length sep)%nat.
Proof.
  induction l as [|x l IH]; [reflexivity|].
  destruct l as [|y l]; [simpl; lia|].
  rewrite join_cons by discriminate.
  rewrite !str_length_app, IH. simpl. lia.
Qed.

(** Two separators that join the same pieces, at least two, to the same
    string have the same length. *)
Lemma join_same_length sep sep' l :
  (2 ≤ length l)%nat → PyStr.join sep l = PyStr.join sep' l →
  String.length sep = String.length sep'.
Proof.
  intros Hl Heq. apply (f_equal String.length) in Heq.
  rewrite !join_length in Heq. nia.
Qed.

Lemma str_app_inv_length a b x y :
  a +:+ x = b +:+ y → String.length a = String.length b → a = b.
Proof.
  revert b. induction a as [|c a IH]; intros [|c' b] Heq Hlen; try discriminate.
  - reflexivity.
  - rewrite !str_app_cons in Heq. injection Heq as <- Heq.
    injection Hlen as Hlen. rewrite (IH b Heq Hlen). reflexivity.
Qed.

Lemma str_app_inv_l a x y : a +:+ x = a +:+ y → x = y.
Proof.
  induction a as [|c a IH]; [auto|]. rewrite !str_app_cons. intros [= Heq]. auto.
Qed.

End JoinFacts.

(** ** Facts about the monad *)

Section MonadFacts.
Context {F : Type}.
Implicit Types (w : world F) (p : event F → bool) (t : list (event F)).

Lemma run_bind {A B} (m : M F A) (k : A → M F B) w :
  (m ≫= k) w =
  match m w with
  | (Return a, t) => ((k a w).1, t ++ (k a w).2)
  | (Raise e, t) => (Raise e, t)
  end.
Proof.
  unfold mbind, M_bind.
  destruct (m w) as [[a|e] t]; [destruct (k a w)|]; reflexivity.
Qed.

Lemma run_bind_return {A B} (m : M F A) (k : A → M F B) w a t :
  m w = (Return a, t) → (m ≫= k) w = ((k a w).1, t ++ (k a w).2).
Proof. intros Hm. rewrite run_bind, Hm. reflexivity. Qed.

Lemma run_bind_raise {A B} (m : M F A) (k : A → M F B) w e t :
  m w = (Raise e, t) → (m ≫= k) w = (Raise e, t).
Proof. intros Hm. rewrite run_bind, Hm. reflexivity. Qed.

Lemma run_try_except {A} (m : M F A) (h : exn → M F A) w :
  try_except m h w =
  match m w with
  | (Return a, t) => (Return a, t)
  | (Raise e, t) => ((h e w).1, t ++ (h e w).2)
  end.
Proof.
  unfold try_except. rewrite run_bind. unfold attempt.
  destruct (m w) as [[a|e] t]; simpl; [rewrite app_nil_r|]; reflexivity.
Qed.

Lemma count_nil p : count p [] = 0%nat.
Proof. reflexivity. Qed.

Lemma count_cons p ev t :
  count p (ev :: t) = ((if p ev then 1 else 0) + count p t)%nat.
Proof. unfold count. simpl. destruct (p ev); reflexivity. Qed.

Lemma count_app p t1 t2 : count p (t1 ++ t2) = (count p t1 + count p t2)%nat.
Proof. unfold count. rewrite List.filter_app, length_app. reflexivity. Qed.

Lemma sleeps_app t1 t2 : sleeps (t1 ++ t2) = sleeps t1 ++ sleeps t2.
Proof. apply omap_app. Qed.

Lemma sleeps_cons_other ev t : is_sleep ev = false → sleeps (ev :: t) = sleeps t.
Proof. destruct ev; (discriminate || reflexivity). Qed.

Lemma count_zero_sleeps t : count is_sleep t = 0%nat → sleeps t = [].
Proof.
  induction t as [|ev t IH]; [reflexivity|].
  rewrite count_cons. destruct ev; simpl; intros Hc; try (apply IH; lia); lia.
Qed.

(** *** Computations that are silent for a class of events *)

Lemma silent_ret {A} p (a : A) : silent p (mret a : M F A).
Proof. intros w. reflexivity. Qed.

Lemma silent_raise {A} p e : silent p (raise e : M F A).
Proof. intros w. reflexivity. Qed.

Lemma silent_lift {A} p (r : outcome A) : silent p (lift r : M F A).
Proof. intros w. reflexivity. Qed.

Lemma silent_ask {A} p (f : world F → A) : silent p (ask f).
Proof. intros w. reflexivity. Qed.

Lemma silent_emit p ev : p ev = false → silent p (emit ev).
Proof. intros Hp w. unfold trace_of, emit. simpl. rewrite count_cons, Hp. reflexivity. Qed.

Lemma silent_extcall {A} p ev (answer : world F → outcome A) :
  p ev = false → silent p (extcall ev answer).
Proof. intros Hp w. unfold trace_of, extcall. simpl. rewrite count_cons, Hp. reflexivity. Qed.

Lemma silent_bind {A B} p (m : M F A) (k : A → M F B) :
  silent p m → (∀ a, silent p (k a)) → silent p (m ≫= k).
Proof.
  intros Hm Hk w. unfold trace_of. rewrite run_bind.
  specialize (Hm w). unfold trace_of in Hm.
  destruct (m w) as [[a|e] t]; simpl in *; [|assumption].
  rewrite count_app, Hm. exact (Hk a w).
Qed.

Lemma silent_attempt {A} p (m : M F A) : silent p m → silent p (attempt m).
Proof.
  intros Hm w. specialize (Hm w). unfold trace_of, attempt in *.
  destruct (m w). assumption.
Qed.

Lemma silent_try_except {A} p (m : M F A) (h : exn → M F A) :
  silent p m → (∀ e, silent p (h e)) → silent p (try_except m h).
Proof.
  intros Hm Hh. apply silent_bind; [apply silent_attempt, Hm|].
  intros [a|e]; [apply silent_ret | apply Hh].
Qed.

(** *** Computations that always return *)

Lemma total_ret {A} (a : A) : total (mret a : M F A).
Proof. intros w. exists a. reflexivity. Qed.

Lemma total_emit ev : total (emit ev : M F unit).
Proof. intros w. exists tt. reflexivity. Qed.

Lemma total_ask {A} (f : world F → A) : total (ask f).
Proof. intros w. exists (f w). reflexivity. Qed.

Lemma total_bind {A B} (m : M F A) (k : A → M F B) :
  total m → (∀ a, total (k a)) → total (m ≫= k).
Proof.
  intros Hm Hk w. destruct (Hm w) as [a Ha]. destruct (Hk a w) as [b Hb].
  exists b. unfold result_of in *. rewrite run_bind.
  destruct (m w) as [r t]. simpl in Ha. subst r. exact Hb.
Qed.

Lemma total_try_except {A} (m : M F A) (h : exn → M F A) :
  (∀ e, total (h e)) → total (try_except m h).
Proof.
  intros Hh w. unfold result_of. rewrite run_try_except.
  destruct (m w) as [[a|e] t]; [exists a; reflexivity|].
  destruct (Hh e w) as [a Ha]. exists a. exact Ha.
Qed.

Lemma total_run {A} (m : M F A) w :
  total m → ∃ a t, m w = (Return a, t).
Proof.
  intros Hm. destruct (Hm w) as [a Ha]. unfold result_of in Ha.
  destruct (m w) as [r t]. simpl in Ha. subst r. eauto.
Qed.

(** *** Result and trace of the first step of a computation *)

Lemma result_bind {A B} (m : M F A) (k : A → M F B) w :
  result_of (m ≫= k) w
  = match result_of m w with Return a => result_of (k a) w | Raise e => Raise e end.
Proof. unfold result_of. rewrite run_bind. destruct (m w) as [[a|e] t]; reflexivity. Qed.

Lemma trace_bind {A B} (m : M F A) (k : A → M F B) w :
  trace_of (m ≫= k) w
  = trace_of m w ++ match result_of m w with Return a => trace_of (k a) w | Raise _ => [] end.
Proof.
  unfold trace_of, result_of. rewrite run_bind.
  destruct (m w) as [[a|e] t]; cbn [fst snd]; [|rewrite app_nil_r]; reflexivity.
Qed.

Lemma result_try_except {A} (m : M F A) (h : exn → M F A) w :
  result_of (try_except m h) w
  = match result_of m w with Return a => Return a | Raise e => result_of (h e) w end.
Proof.
  unfold result_of. rewrite run_try_except. destruct (m w) as [[a|e] t]; reflexivity.
Qed.

Lemma trace_try_except {A} (m : M F A) (h : exn → M F A) w :
  trace_of (try_except m h) w
  = trace_of m w ++ match result_of m w with Return _ => [] | Raise e => trace_of (h e) w end.
Proof.
  unfold trace_of, result_of. rewrite run_try_except.
  destruct (m w) as [[a|e] t]; cbn [fst snd]; [rewrite app_nil_r|]; reflexivity.
Qed.

Lemma result_ret {A} (a : A) w : result_of (mret a : M F A) w = Return a.
Proof. reflexivity. Qed.

Lemma trace_ret {A} (a : A) w : trace_of (mret a : M F A) w = [].
Proof. reflexivity. Qed.

Lemma trace_ask_bind {A B} (f : world F → A) (k : A → M F B) w :
  trace_of (ask f ≫= k) w = trace_of (k (f w)) w.
Proof. unfold trace_of. rewrite run_bind. reflexivity. Qed.

Lemma result_ask_bind {A B} (f : world F → A) (k : A → M F B) w :
  result_of (ask f ≫= k) w = result_of (k (f w)) w.
Proof. unfold result_of. rewrite run_bind. reflexivity. Qed.

Lemma trace_emit_bind {B} ev (k : unit → M F B) w :
  trace_of (emit ev ≫= k) w = ev :: trace_of (k tt) w.
Proof. unfold trace_of. rewrite run_bind. reflexivity. Qed.

Lemma result_emit_bind {B} ev (k : unit → M F B) w :
  result_of (emit ev ≫= k) w = result_of (k tt) w.
Proof. unfold result_of. rewrite run_bind. reflexivity. Qed.

Lemma trace_lift_bind {A B} (r : outcome A) (k : A → M F B) w :
  trace_of (lift r ≫= k) w
  = match r with Return a => trace_of (k a) w | Raise _ => [] end.
Proof. unfold trace_of. rewrite run_bind. destruct r; reflexivity. Qed.

Lemma result_lift_bind {A B} (r : outcome A) (k : A → M F B) w :
  result_of (lift r ≫= k) w
  = match r with Return a => result_of (k a) w | Raise e => Raise e end.
Proof. unfold result_of. rewrite run_bind. destruct r; reflexivity. Qed.

Lemma trace_extcall_bind {A B} ev (answer : world F → outcome A) (k : A → M F B) w :
  trace_of (extcall ev answer ≫= k) w
  = ev :: match answer w with Return a => trace_of (k a) w | Raise _ => [] end.
Proof.
  unfold trace_of. rewrite run_bind. unfold extcall.
  destruct (answer w); reflexivity.
Qed.

Lemma result_extcall_bind {A B} ev (answer : world F → outcome A) (k : A → M F B) w :
  result_of (extcall ev answer ≫= k) w
  = match answer w with Return a => result_of (k a) w | Raise e => Raise e end.
Proof.
  unfold result_of. rewrite run_bind. unfold extcall.
  destruct (answer w); reflexivity.
Qed.

Lemma trace_attempt_extcall_bind {A B} ev (answer : world F → outcome A)
    (k : outcome A → M F B) w :
  trace_of (attempt (extcall ev answer) ≫= k) w = ev :: trace_of (k (answer w)) w.
Proof. unfold trace_of. rewrite run_bind. reflexivity. Qed.

Lemma result_attempt_extcall_bind {A B} ev (answer : world F → outcome A)
    (k : outcome A → M F B) w :
  result_of (attempt (extcall ev answer) ≫= k) w = result_of (k (answer w)) w.
Proof. unfold result_of. rewrite run_bind. reflexivity. Qed.

(** An [Invoke] mark followed by a body that is silent for it happens once. *)
Lemma count_marked {A} p ev (m : M F A) w :
  p ev = true → silent p m → count p (trace_of (emit ev ;; m) w) = 1%nat.
Proof.
  intros Hp Hm. specialize (Hm w). unfold trace_of in *.
  rewrite run_bind. simpl. rewrite count_cons, Hp, Hm. reflexivity.
Qed.

End MonadFacts.

(** Split a goal about a computation along its binds and branches. *)
Ltac step_silent :=
  repeat first
    [ progress intros
    | apply silent_ret | apply silent_raise | apply silent_lift | apply silent_ask
    | apply silent_emit; reflexivity
    | apply silent_extcall; reflexivity
    | apply silent_attempt
    | apply silent_try_except
    | apply silent_bind
    | match goal with
      | |- silent _ (if ?b then _ else _) => destruct b
      | |- silent _ (match ?x with _ => _ end) => destruct x
      end ].

(** ** Facts about the agent's functions *)

Ltac unfold_agent :=
  unfold remediate, restart_deployment_k8s, create_github_pr_update_helm,
    post_slack, log_action, get_average_cpu_for_deployment, query_prometheus,
    print, sleep.

Ltac solve_silent := unfold_agent; step_silent.

Section AgentFacts.
Context {F : Type} `{PyFloat F}.
Variable cfg : config F.
Implicit Types (w : world F).

Lemma log_action_run (a : action_obj F) w :
  log_action a w = (Return tt, [Invoke f_log_action; StdoutAction a]).
Proof. reflexivity. Qed.

Lemma post_slack_total text : total (post_slack cfg text).
Proof.
  unfold post_slack. apply total_bind; [apply total_emit|]. intros _.
  destruct (negb _); [apply total_emit|].
  apply total_try_except. intros e. apply total_emit.
Qed.

Lemma sampler_total dn ns : total (get_average_cpu_for_deployment cfg dn ns).
Proof.
  unfold get_average_cpu_for_deployment.
  apply total_bind; [apply total_emit|]. intros _.
  apply total_try_except. intros e.
  apply total_bind; [apply total_emit | intros _; apply total_ret].
Qed.

Lemma restart_total dn ns : total (restart_deployment_k8s (F:=F) dn ns).
Proof.
  unfold restart_deployment_k8s.
  apply total_bind; [apply total_emit|]. intros _.
  apply total_bind.
  - apply total_try_except. intros _. apply total_try_except. intros e.
    apply total_bind; [apply total_emit | intros _; apply total_ret].
  - intros [r|]; [apply total_ret|].
    apply total_bind; [apply total_ask|]. intros now.
    apply total_try_except. intros e. apply total_ret.
Qed.

(** One turn, taken apart: the sample, then either the notification, the
    remediation and the long sleep, or the short sleep. *)
Lemma main_loop_body_run poll w :
  let s := get_average_cpu_for_deployment cfg (DEPLOYMENT_NAME cfg) (NAMESPACE cfg) in
  ∃ results,
    result_of s w = Return (sampled cfg w, results) ∧
    main_loop_body cfg poll w =
    let avg := sampled cfg w in
    let pre :=
      trace_of s w ++
      [Stdout ("[" +:+ utcnow_log w +:+ "] avg_cpu=" +:+ frepr avg
               +:+ " (threshold=" +:+ frepr (CPU_THRESHOLD cfg) +:+ ")")] in
    if breach_in cfg w then
      let issue_text := issue_text_of cfg avg in
      let plan := simple_llm_reasoning issue_text in
      let notify :=
        [Invoke f_log_action;
         StdoutAction (ActionPlan (utcnow_action w) (DEPLOYMENT_NAME cfg)
                         (NAMESPACE cfg) avg plan results)] ++
        trace_of (post_slack cfg (":rotating_light: *Agentic AIOps:* " +:+ issue_text
                                  +:+ nl +:+ "Plan:" +:+ nl +:+ plan)) w in
      match result_of (remediate cfg) w with
      | Return _ =>
          (sleep_outcome (poll * 2),
           pre ++ notify ++ trace_of (remediate cfg) w ++ [Sleep (poll * 2)])
      | Raise e => (Raise e, pre ++ notify ++ trace_of (remediate cfg) w)
      end
    else (sleep_outcome poll, pre ++ [Sleep poll]).
Proof.
  intros s.
  destruct (total_run s w (sampler_total _ _)) as ([avg results] & t0 & Hs).
  assert (Havg : sampled cfg w = avg).
  { unfold sampled, result_of. fold s. rewrite Hs. reflexivity. }
  exists results. unfold result_of, trace_of. rewrite Hs, Havg. split; [reflexivity|].
  unfold breach_in. rewrite Havg.
  unfold main_loop_body. fold s. rewrite (run_bind_return _ _ _ _ _ Hs).
  rewrite run_bind. cbn [ask fst snd app].
  rewrite run_bind. cbn [print emit fst snd app].
  destruct (breach cfg avg);
    [|cbn [sleep extcall fst snd]; rewrite <- app_assoc; reflexivity].
  rewrite run_bind. cbn [ask fst snd app].
  rewrite run_bind, log_action_run. cbn [fst snd].
  rewrite run_bind.
  match goal with |- context [post_slack cfg ?x w] =>
    destruct (total_run (post_slack cfg x) w (post_slack_total _)) as ([] & t1 & Hp);
    rewrite Hp
  end.
  cbn [fst snd]. rewrite run_bind.
  destruct (remediate cfg w) as [[[]|e] t2]; cbn [fst snd sleep extcall].
  - rewrite <- !app_assoc. reflexivity.
  - rewrite <- !app_assoc. reflexivity.
Qed.

End AgentFacts.

Section TurnFacts.
Context {F : Type} `{PyFloat F}.
Variable cfg : config F.
Implicit Types (w : world F) (p : event F → bool).

(** What follows a computation does not add to a count it is silent for. *)
Lemma count_bind_silent {A B} p (m : M F A) (k : A → M F B) w :
  (∀ a, silent p (k a)) →
  count p (trace_of (m ≫= k) w) = count p (trace_of m w).
Proof.
  intros Hk. unfold trace_of. rewrite run_bind.
  destruct (m w) as [[a|e] t]; [|reflexivity].
  cbn [snd]. rewrite count_app. specialize (Hk a w). unfold trace_of in Hk.
  rewrite Hk. lia.
Qed.

Lemma restart_invocations dn ns w :
  invocations f_restart_deployment_k8s
    (trace_of (restart_deployment_k8s dn ns) w) = 1%nat ∧
  invocations f_create_github_pr_update_helm
    (trace_of (restart_deployment_k8s dn ns) w) = 0%nat.
Proof.
  split.
  - unfold invocations, restart_deployment_k8s.
    apply count_marked; [reflexivity|]. solve_silent.
  - assert (Hs : silent (is_invoke f_create_github_pr_update_helm)
                   (restart_deployment_k8s (F:=F) dn ns)) by solve_silent.
    apply Hs.
Qed.

Lemma create_pr_invocations new_tag w :
  invocations f_create_github_pr_update_helm
    (trace_of (create_github_pr_update_helm cfg new_tag) w) = 1%nat ∧
  invocations f_restart_deployment_k8s
    (trace_of (create_github_pr_update_helm cfg new_tag) w) = 0%nat.
Proof.
  split.
  - unfold invocations, create_github_pr_update_helm.
    apply count_marked; [reflexivity|]. solve_silent.
  - assert (Hs : silent (is_invoke f_restart_deployment_k8s)
                   (create_github_pr_update_helm cfg new_tag)) by solve_silent.
    apply Hs.
Qed.

(** The remediation step enters the action its mode selects, once, and not
    the other. *)
Lemma remediate_invocations w :
  invocations f_restart_deployment_k8s (trace_of (remediate cfg) w)
  = (if DRY_RUN cfg then 0 else if AUTO_APPLY cfg then 1 else 0)%nat ∧
  invocations f_create_github_pr_update_helm (trace_of (remediate cfg) w)
  = (if DRY_RUN cfg then 0 else if AUTO_APPLY cfg then 0 else 1)%nat.
Proof.
  unfold remediate, invocations.
  destruct (DRY_RUN cfg); [split; reflexivity|].
  destruct (AUTO_APPLY cfg); cbv iota.
  - split.
    + rewrite (count_bind_silent (is_invoke f_restart_deployment_k8s))
        by solve_silent.
      apply restart_invocations.
    + rewrite (count_bind_silent (is_invoke f_create_github_pr_update_helm))
        by solve_silent.
      apply restart_invocations.
  - split.
    + rewrite trace_ask_bind.
      rewrite (count_bind_silent (is_invoke f_restart_deployment_k8s))
        by solve_silent.
      apply create_pr_invocations.
    + rewrite trace_ask_bind.
      rewrite (count_bind_silent (is_invoke f_create_github_pr_update_helm))
        by solve_silent.
      apply create_pr_invocations.
Qed.

(** In one turn, a remediation action is entered only by the remediation
    step of a breach. *)
Lemma turn_invocations f poll w :
  f = f_restart_deployment_k8s ∨ f = f_create_github_pr_update_helm →
  invocations f (trace_of (main_loop_body cfg poll) w)
  = if breach_in cfg w then invocations f (trace_of (remediate cfg) w) else 0%nat.
Proof.
  intros Hf.
  destruct (main_loop_body_run cfg poll w) as (results & _ & Hrun).
  unfold trace_of at 1. rewrite Hrun. clear Hrun. cbn zeta.
  assert (Hsample : silent (is_invoke f)
            (get_average_cpu_for_deployment cfg (DEPLOYMENT_NAME cfg) (NAMESPACE cfg)))
    by (destruct Hf; subst f; solve_silent).
  assert (Hslack : ∀ text, silent (is_invoke f) (post_slack cfg text))
    by (intros text; destruct Hf; subst f; solve_silent).
  assert (Hmark : is_invoke (F:=F) f (Invoke f_log_action) = false)
    by (destruct Hf; subst f; reflexivity).
  unfold invocations.
  destruct (breach_in cfg w).
  - destruct (result_of (remediate cfg) w); cbn [snd];
      rewrite !count_app, !count_cons, !count_nil, Hmark, Hsample, Hslack;
      cbn [is_invoke]; lia.
  - cbn [snd]. rewrite !count_app, !count_cons, !count_nil, Hsample.
    cbn [is_invoke]. lia.
Qed.

End TurnFacts.

(** ** The remediation step and the sleep of a turn *)

(** [time.sleep] takes the intervals from 0 to 9223372036 seconds, those
    up to [max_sleep] among them. *)
Lemma sleep_returns_iff (seconds : Z) :
  is_return (sleep_outcome seconds) = true ↔ 0 ≤ seconds ≤ 9223372036.
Proof.
  unfold sleep_outcome. cbv zeta.
  destruct (Z.ltb_spec (seconds * 1000000000) (- 9223372036854775808));
    destruct (Z.ltb_spec 9223372036854775807 (seconds * 1000000000));
    destruct (Z.ltb_spec seconds 0); cbn [orb is_return];
    split; intros Hs; try discriminate; try reflexivity; lia.
Qed.


Section Remediation.
Context {F : Type} `{PyFloat F}.
Variable cfg : config F.
Implicit Types (w : world F).

Lemma create_pr_returns new_tag w :
  is_return (result_of (create_github_pr_update_helm cfg new_tag) w)
  = propose_unguarded_ok cfg w.
Proof.
  unfold create_github_pr_update_helm, propose_unguarded_ok.
  rewrite result_emit_bind.
  destruct (negb (PyStr.truthy (GITHUB_TOKEN cfg)) || negb (PyStr.truthy (GITHUB_REPO cfg)));
    [reflexivity|].
  cbn [orb]. rewrite result_extcall_bind.
  destruct (get_repo w) as [[]|?]; [|reflexivity].
  rewrite result_extcall_bind.
  destruct (get_branch w) as [base|?]; [|reflexivity].
  rewrite result_ask_bind, result_attempt_extcall_bind.
  destruct (create_git_ref w) as [[]|?]; [|reflexivity].
  rewrite result_attempt_extcall_bind.
  destruct (get_contents w) as [contents|?]; [|reflexivity].
  rewrite result_lift_bind.
  destruct (decoded contents) as [original|?]; [|reflexivity].
  rewrite result_attempt_extcall_bind.
  destruct (update_file w) as [[]|?]; [|reflexivity].
  rewrite result_attempt_extcall_bind.
  destruct (create_pull w) as [url|?]; reflexivity.
Qed.

(** The remediation step returns when it is skipped, when it restarts, and
    when it proposes a change with the unguarded calls answering; otherwise
    the exception of an unguarded call leaves it. *)
Lemma remediate_returns w :
  is_return (result_of (remediate cfg) w)
  = DRY_RUN cfg || AUTO_APPLY cfg || propose_unguarded_ok cfg w.
Proof.
  unfold remediate. destruct (DRY_RUN cfg); [reflexivity|].
  destruct (AUTO_APPLY cfg); cbn [orb].
  - unfold result_of. rewrite run_bind.
    destruct (total_run _ w (restart_total (DEPLOYMENT_NAME cfg) (NAMESPACE cfg)))
      as ([ok msg] & t & Hr).
    rewrite Hr. reflexivity.
  - rewrite result_ask_bind, <- (create_pr_returns ("agent-" +:+ utcnow_stamp w) w).
    unfold result_of. rewrite run_bind.
    destruct (create_github_pr_update_helm cfg _ w) as [[[ok msg]|e] t]; reflexivity.
Qed.

Lemma remediate_no_sleep w : sleeps (trace_of (remediate cfg) w) = [].
Proof.
  apply count_zero_sleeps.
  assert (Hs : silent is_sleep (remediate cfg)) by solve_silent.
  apply Hs.
Qed.

Lemma sampler_no_sleep dn ns w :
  sleeps (trace_of (get_average_cpu_for_deployment cfg dn ns) w) = [].
Proof.
  apply count_zero_sleeps.
  assert (Hs : silent is_sleep (get_average_cpu_for_deployment cfg dn ns))
    by solve_silent.
  apply Hs.
Qed.

Lemma post_slack_no_sleep text w : sleeps (trace_of (post_slack cfg text) w) = [].
Proof.
  apply count_zero_sleeps.
  assert (Hs : silent is_sleep (post_slack cfg text)) by solve_silent.
  apply Hs.
Qed.

(** The sleeps of a turn: the interval after a quiet sample, twice the
    interval after a breach whose remediation step returned, none when an
    exception left the remediation step.  The turn ends as its sleep does. *)
Lemma turn_sleeps poll w :
  main_loop_body cfg poll w
  = (result_of (main_loop_body cfg poll) w, trace_of (main_loop_body cfg poll) w) ∧
  (breach_in cfg w = false →
   result_of (main_loop_body cfg poll) w = sleep_outcome poll ∧
   sleeps (trace_of (main_loop_body cfg poll) w) = [poll]) ∧
  (breach_in cfg w = true →
   is_return (result_of (remediate cfg) w) = true →
   result_of (main_loop_body cfg poll) w = sleep_outcome (poll * 2) ∧
   sleeps (trace_of (main_loop_body cfg poll) w) = [poll * 2]) ∧
  (breach_in cfg w = true →
   is_return (result_of (remediate cfg) w) = false →
   is_return (result_of (main_loop_body cfg poll) w) = false ∧
   sleeps (trace_of (main_loop_body cfg poll) w) = []).
Proof.
  set (body := main_loop_body cfg poll).
  assert (Hb : body w = (result_of body w, trace_of body w))
    by (unfold result_of, trace_of; destruct (body w); reflexivity).
  split; [exact Hb|].
  destruct (main_loop_body_run cfg poll w) as (results & _ & Hrun).
  fold body in Hrun. rewrite Hb in Hrun. cbv zeta in Hrun.
  destruct (breach_in cfg w); (split; [|split]); try discriminate; intros _.
  - destruct (result_of (remediate cfg) w); [|discriminate]. intros _.
    injection Hrun as -> ->. split; [reflexivity|].
    rewrite !sleeps_app, !sleeps_cons_other, !sleeps_app by reflexivity.
    rewrite sampler_no_sleep, post_slack_no_sleep, remediate_no_sleep.
    reflexivity.
  - destruct (result_of (remediate cfg) w); [discriminate|]. intros _.
    injection Hrun as -> ->. split; [reflexivity|].
    rewrite !sleeps_app, !sleeps_cons_other, !sleeps_app by reflexivity.
    rewrite sampler_no_sleep, post_slack_no_sleep, remediate_no_sleep.
    reflexivity.
  - injection Hrun as -> ->. split; [reflexivity|].
    rewrite !sleeps_app, sampler_no_sleep. reflexivity.
Qed.

End Remediation.

Section Notification.
Context {F : Type} `{PyFloat F}.
Variable cfg : config F.
Implicit Types (w : world F).

(** A turn without a breach is the sample, the log line and the short sleep. *)
Lemma quiet_turn_trace poll w :
  breach_in cfg w = false →
  trace_of (main_loop_body cfg poll) w
  = trace_of (get_average_cpu_for_deployment cfg (DEPLOYMENT_NAME cfg) (NAMESPACE cfg)) w
    ++ [Stdout ("[" +:+ utcnow_log w +:+ "] avg_cpu=" +:+ frepr (sampled cfg w)
                +:+ " (threshold=" +:+ frepr (CPU_THRESHOLD cfg) +:+ ")");
        Sleep poll].
Proof.
  intros Hq. destruct (main_loop_body_run cfg poll w) as (results & _ & Hrun).
  unfold trace_of at 1. rewrite Hrun, Hq. cbn zeta. cbn [snd].
  rewrite <- app_assoc. reflexivity.
Qed.

Lemma quiet_turn_count p poll w :
  breach_in cfg w = false →
  silent p (get_average_cpu_for_deployment cfg (DEPLOYMENT_NAME cfg) (NAMESPACE cfg)) →
  (∀ line, p (Stdout line) = false) →
  p (Sleep poll) = false →
  count p (trace_of (main_loop_body cfg poll) w) = 0%nat.
Proof.
  intros Hq Hs Hout Hsleep. rewrite (quiet_turn_trace _ _ Hq).
  rewrite count_app, !count_cons, count_nil, Hs, Hout, Hsleep. reflexivity.
Qed.

Lemma post_slack_invocations text w :
  invocations f_post_slack (trace_of (post_slack cfg text) w) = 1%nat.
Proof.
  unfold invocations, post_slack. apply count_marked; [reflexivity|].
  solve_silent.
Qed.

(** A turn with a breach notifies once. *)
Lemma breach_turn_notifies poll w :
  breach_in cfg w = true →
  invocations f_post_slack (trace_of (main_loop_body cfg poll) w) = 1%nat.
Proof.
  intros Hb. destruct (main_loop_body_run cfg poll w) as (results & _ & Hrun).
  unfold trace_of at 1. rewrite Hrun, Hb. clear Hrun. cbn zeta.
  assert (Hsample : silent (is_invoke f_post_slack)
            (get_average_cpu_for_deployment cfg (DEPLOYMENT_NAME cfg) (NAMESPACE cfg)))
    by solve_silent.
  assert (Hrem : silent (is_invoke f_post_slack) (remediate cfg)) by solve_silent.
  assert (Hslack : ∀ text,
            count (is_invoke f_post_slack) (trace_of (post_slack cfg text) w) = 1%nat)
    by (intros text; apply post_slack_invocations).
  unfold invocations.
  destruct (result_of (remediate cfg) w); cbn [snd];
    rewrite !count_app, !count_cons, !count_nil, Hsample, Hrem, Hslack;
    cbn [is_invoke]; reflexivity.
Qed.

End Notification.

(** ** Remediation by mode *)

(** C1.  In a turn of the loop in which a breach occurs: with dry-run on,
    neither [restart_deployment_k8s] (Restart) nor
    [create_github_pr_update_helm] (ProposeChange) is entered, whatever
    auto-apply is; with dry-run off and auto-apply on, Restart is entered
    once and ProposeChange is not; with both off, ProposeChange is entered
    once and Restart is not; so at most one of them is entered in the turn. *)
Theorem remediation_follows_mode {F} `{PyFloat F} (cfg : config F) (poll : Z)
    (w : world F) :
  breach_in cfg w = true →
  let t := trace_of (main_loop_body cfg poll) w in
  let restarts := invocations f_restart_deployment_k8s t in
  let proposals := invocations f_create_github_pr_update_helm t in
  (DRY_RUN cfg = true → restarts = 0 ∧ proposals = 0)%nat ∧
  (DRY_RUN cfg = false → AUTO_APPLY cfg = true → restarts = 1 ∧ proposals = 0)%nat ∧
  (DRY_RUN cfg = false → AUTO_APPLY cfg = false → restarts = 0 ∧ proposals = 1)%nat ∧
  (restarts + proposals ≤ 1)%nat.
Proof.
  intros Hb t restarts proposals. subst t restarts proposals.
  rewrite !turn_invocations, Hb by auto.
  destruct (remediate_invocations cfg w) as [-> ->].
  destruct (DRY_RUN cfg), (AUTO_APPLY cfg); repeat split; intros; (discriminate || lia).
Qed.

Lemma remediation_follows_mode_witness :
  breach_in (Demo.cfg false true) Demo.hot = true ∧
  invocations f_restart_deployment_k8s
    (trace_of (main_loop_body (Demo.cfg false true) 30) Demo.hot) = 1%nat ∧
  invocations f_create_github_pr_update_helm
    (trace_of (main_loop_body (Demo.cfg false true) 30) Demo.hot) = 0%nat.
Proof.
  assert (Hb : breach_in (Demo.cfg false true) Demo.hot = true)
    by (vm_compute; reflexivity).
  split; [exact Hb|].
  destruct (remediation_follows_mode (Demo.cfg false true) 30 Demo.hot Hb)
    as (_ & Hauto & _).
  apply Hauto; reflexivity.
Defined.

(** ** A missing metric source address *)

Section MissingAddress.
Context {F : Type} `{PyFloat F}.

(** With no address, the sampler's query raises before any request, and the
    sampler logs it and reports no data. *)
Lemma sampler_without_address (cfg : config F) dn ns (w : world F) :
  PyStr.truthy (PROM_URL cfg) = false →
  get_average_cpu_for_deployment cfg dn ns w
  = (Return (fzero, JArr []),
     [Invoke f_get_average_cpu_for_deployment; Invoke f_query_prometheus;
      Stdout "Prom query error: PROMETHEUS_URL not configured"]).
Proof.
  intros Hoff. unfold get_average_cpu_for_deployment.
  rewrite run_bind. cbn [emit fst snd]. rewrite run_try_except.
  unfold query_prometheus. rewrite run_bind. cbn [emit fst snd].
  rewrite run_bind, Hoff. reflexivity.
Qed.

Lemma load_config_prom_url environ (cfg : config F) :
  load_config environ = Return cfg → PROM_URL cfg = environ !! "PROMETHEUS_URL".
Proof.
  unfold load_config. destruct (float_of_str _); [|discriminate].
  intros [= <-]. reflexivity.
Qed.

End MissingAddress.

(** C2, as the code has it.  When [PROMETHEUS_URL] is unset or empty, import
    raises nothing for it: the configuration loads whenever the threshold
    parses.  In every turn the query then raises [RuntimeError] before any
    request is made, and the sampler catches it, logs it and returns 0.0 and
    an empty list. *)
Theorem missing_address_is_recovered {F} `{PyFloat F}
    (environ : gmap string string) (threshold : F) :
  PyStr.truthy (environ !! "PROMETHEUS_URL") = false →
  float_of_str (getenv_or environ "CPU_THRESHOLD" "0.5") = Some threshold →
  ∃ cfg : config F,
    load_config environ = Return cfg ∧
    ∀ w : world F,
      get_average_cpu_for_deployment cfg (DEPLOYMENT_NAME cfg) (NAMESPACE cfg) w
      = (Return (fzero, JArr []),
         [Invoke f_get_average_cpu_for_deployment; Invoke f_query_prometheus;
          Stdout "Prom query error: PROMETHEUS_URL not configured"]).
Proof.
  intros Hoff Hthr.
  destruct (load_config (F:=F) environ) as [cfg|e] eqn:Hload.
  - exists cfg. split; [reflexivity|]. intros w.
    apply sampler_without_address.
    rewrite (load_config_prom_url _ _ Hload). exact Hoff.
  - unfold load_config in Hload. rewrite Hthr in Hload. discriminate.
Qed.

Lemma missing_address_is_recovered_witness :
  ∃ cfg : config Q,
    load_config ∅ = Return cfg ∧
    ∀ w : world Q,
      get_average_cpu_for_deployment cfg (DEPLOYMENT_NAME cfg) (NAMESPACE cfg) w
      = (Return (fzero, JArr []),
         [Invoke f_get_average_cpu_for_deployment; Invoke f_query_prometheus;
          Stdout "Prom query error: PROMETHEUS_URL not configured"]).
Proof.
  apply (missing_address_is_recovered ∅ (1 # 2)); reflexivity.
Defined.

(** With [PROMETHEUS_URL] unset the process starts and the loop runs: after
    two turns it is still running, both turns sampled and slept the
    interval, and no request was made. *)
Lemma loop_runs_without_address :
  (∅ : gmap string string) !! "PROMETHEUS_URL" = None ∧
  (agent_process ∅ ∅ [Demo.calm; Demo.calm]).1 = Return tt ∧
  invocations f_get_average_cpu_for_deployment
    (agent_process ∅ ∅ [Demo.calm; Demo.calm]).2 = 2%nat ∧
  count is_http_get (agent_process ∅ ∅ [Demo.calm; Demo.calm]).2 = 0%nat ∧
  sleeps (agent_process ∅ ∅ [Demo.calm; Demo.calm]).2 = [30; 30].
Proof. vm_compute. repeat split. Qed.

(** ** The threshold *)

(** C3.  The loop treats a sample as a breach exactly when the average is
    greater than the threshold ([avg_cpu > CPU_THRESHOLD]); an average equal
    to the threshold is no breach; a turn without a breach enters neither
    [post_slack] nor a remediation action and posts nothing, while a turn
    with a breach enters [post_slack]. *)
Theorem breach_is_strict {F} `{PyFloat F} (cfg : config F) (poll : Z) (w : world F) :
  let t := trace_of (main_loop_body cfg poll) w in
  (breach_in cfg w = true ↔ fgt (sampled cfg w) (CPU_THRESHOLD cfg) = true) ∧
  (sampled cfg w = CPU_THRESHOLD cfg → breach_in cfg w = false) ∧
  (breach_in cfg w = false →
   invocations f_post_slack t = 0 ∧ count is_http_post t = 0 ∧
   invocations f_restart_deployment_k8s t = 0 ∧
   invocations f_create_github_pr_update_helm t = 0)%nat ∧
  (breach_in cfg w = true → invocations f_post_slack t = 1%nat).
Proof.
  intros t. subst t. split; [reflexivity|]. split; [|split].
  - intros Heq. unfold breach_in, breach. rewrite Heq. apply fgt_irrefl.
  - intros Hq. unfold invocations.
    repeat split; apply quiet_turn_count; try assumption; try reflexivity;
      solve_silent.
  - apply breach_turn_notifies.
Qed.

Lemma breach_is_strict_witness :
  breach_in (Demo.cfg false false) Demo.calm = false ∧
  invocations f_post_slack
    (trace_of (main_loop_body (Demo.cfg false false) 30) Demo.calm) = 0%nat.
Proof.
  assert (Hq : breach_in (Demo.cfg false false) Demo.calm = false)
    by (vm_compute; reflexivity).
  split; [exact Hq|].
  destruct (breach_is_strict (Demo.cfg false false) 30 Demo.calm) as (_ & _ & Hquiet & _).
  apply (Hquiet Hq).
Defined.

(** ** The metric sampler *)

Section Sampler.
Context {F : Type} `{PyFloat F}.
Variable cfg : config F.
Implicit Types (w : world F).

(** The loop over the series reads them all, or raises at the first that
    does not read. *)
Lemma mapM_reading_Forall2 (items : list (json F)) (values : list F) :
  mapM reading items = Return values ↔
  Forall2 (λ r v, reading r = Return v) items values.
Proof.
  revert values. induction items as [|r items IH]; intros values; simpl.
  - split.
    + intros [= <-]. constructor.
    + intros Hall. inversion Hall. reflexivity.
  - split.
    + destruct (reading r) as [v|e] eqn:Hr; [|discriminate]. simpl.
      destruct (mapM reading items) as [vs|e] eqn:Hrest; [|discriminate]. simpl.
      intros [= <-]. constructor; [exact Hr|]. apply IH. reflexivity.
    + intros Hall. inversion Hall as [|? v ? vs Hr Hrest]; subst.
      rewrite Hr. simpl. apply IH in Hrest. rewrite Hrest. reflexivity.
Qed.

(** What the sampler returns, by what its [try] block meets. *)
Lemma sampler_result dn ns w :
  result_of (get_average_cpu_for_deployment cfg dn ns) w
  = match result_of (query_prometheus cfg (prom_query dn ns)) w with
    | Raise _ => Return (fzero, JArr [])
    | Return data =>
        match
          d ← py_get data "data" (JObj ∅);
          results ← py_get d "result" (JArr []);
          items ← py_iter results;
          values ← mapM reading items;
          mret (average values, results)
        with
        | Return r => Return r
        | Raise _ => Return (fzero, JArr [])
        end
    end.
Proof.
  unfold get_average_cpu_for_deployment.
  rewrite result_emit_bind, result_try_except, result_bind.
  destruct (result_of (query_prometheus cfg (prom_query dn ns)) w) as [data|e];
    [|reflexivity].
  rewrite result_lift_bind.
  destruct (py_get data "data" (JObj ∅)) as [d|e]; [|reflexivity]. simpl.
  rewrite result_lift_bind.
  destruct (py_get d "result" (JArr [])) as [results|e]; [|reflexivity]. simpl.
  rewrite result_lift_bind.
  destruct (py_iter results) as [items|e]; [|reflexivity]. simpl.
  rewrite result_lift_bind.
  destruct (mapM reading items) as [values|e]; reflexivity.
Qed.

End Sampler.

(** C4.  The sampler never lets a failure out.  When the query raises, it
    returns 0.0 and an empty list.  When the query answers with the series
    [items]: with no series it returns 0.0 and the empty list; when every
    series reads as a value, it returns [sum(values) / len(values)] over
    all of them, each counted once, with the series. *)
Theorem sampler_average {F} `{PyFloat F} (cfg : config F) (dn ns : string) (w : world F) :
  let s := get_average_cpu_for_deployment cfg dn ns in
  let q := query_prometheus cfg (prom_query dn ns) in
  (∃ avg results, result_of s w = Return (avg, results)) ∧
  (∀ e, result_of q w = Raise e → result_of s w = Return (fzero, JArr [])) ∧
  (∀ data d items,
     result_of q w = Return data →
     py_get data "data" (JObj ∅) = Return d →
     py_get d "result" (JArr []) = Return (JArr items) →
     (items = [] → result_of s w = Return (fzero, JArr [])) ∧
     (∀ values, Forall2 (λ r v, reading r = Return v) items values →
        result_of s w = Return (average values, JArr items) ∧
        (items ≠ [] →
         average values = fdiv_int (fsum values) (Z.of_nat (length values))))).
Proof.
  intros s q. subst s q. split; [|split].
  - destruct (sampler_total cfg dn ns w) as [[avg results] Hs]. eauto.
  - intros e He. rewrite sampler_result, He. reflexivity.
  - intros data d items Hq Hdata Hresult. rewrite sampler_result, Hq, Hdata.
    simpl. rewrite Hresult. simpl. split.
    + intros ->. reflexivity.
    + intros values Hall. pose proof Hall as Hlen%Forall2_length.
      apply mapM_reading_Forall2 in Hall. rewrite Hall. simpl.
      split; [reflexivity|]. intros Hne.
      destruct values; [destruct items; [congruence|discriminate]|reflexivity].
Qed.

Lemma sampler_average_witness :
  result_of (get_average_cpu_for_deployment (Demo.cfg true false) "myapp" "default")
    Demo.hot
  = Return (fdiv_int (fsum [1 # 2; 7 # 10]) 2,
            JArr [Demo.series "myapp-7d9f-abcde" "0.5"; Demo.series "myapp-7d9f-fghij" "0.7"]).
Proof.
  destruct (sampler_average (Demo.cfg true false) "myapp" "default" Demo.hot)
    as (_ & _ & Hok).
  destruct (Hok _ _ _ ltac:(vm_compute; reflexivity) ltac:(vm_compute; reflexivity)
              ltac:(vm_compute; reflexivity)) as [_ Hvalues].
  apply (Hvalues [1 # 2; 7 # 10]).
  repeat constructor.
Defined.

(** ** The notification sink *)

(** C5, as the code has it.  A delivery never raises and makes at most one
    request.  With no webhook configured it writes the content to the log
    and makes no request.  With a webhook it makes one request and logs a
    network error or a status of 300 or more (3xx included); it logs
    nothing for a status below 300. *)
Theorem post_slack_best_effort {F} `{PyFloat F} (cfg : config F) (text : string)
    (w : world F) :
  let t := trace_of (post_slack cfg text) w in
  result_of (post_slack cfg text) w = Return tt ∧
  (count is_http_post t ≤ 1)%nat ∧
  (PyStr.truthy (SLACK_WEBHOOK cfg) = false →
   t = [Invoke f_post_slack;
        Stdout ("Slack webhook not configured. Message: " +:+ text)]) ∧
  (∀ url, SLACK_WEBHOOK cfg = Some url → url ≠ EmptyString →
   t = Invoke f_post_slack :: HttpPost url text :: (Stdout <$> slack_log (requests_post w))).
Proof.
  intros t. subst t.
  assert (Hcases :
    (PyStr.truthy (SLACK_WEBHOOK cfg) = false ∧
     post_slack cfg text w
     = (Return tt, [Invoke f_post_slack;
                    Stdout ("Slack webhook not configured. Message: " +:+ text)])) ∨
    (∃ url, SLACK_WEBHOOK cfg = Some url ∧ url ≠ EmptyString ∧
     post_slack cfg text w
     = (Return tt, Invoke f_post_slack :: HttpPost url text
                   :: (Stdout <$> slack_log (requests_post w))))).
  { unfold post_slack. rewrite run_bind. cbn [emit fst snd].
    destruct (SLACK_WEBHOOK cfg) as [[|c url]|] eqn:Hhook; cbn [PyStr.truthy negb].
    - left. split; reflexivity.
    - right. exists (String c url). split; [reflexivity|]. split; [discriminate|].
      rewrite run_try_except, run_bind. unfold extcall, slack_log. cbn [default].
      destruct (requests_post w) as [resp|e]; cbn [fst snd]; [|reflexivity].
      destruct (300 <=? status_code resp); reflexivity.
    - left. split; reflexivity. }
  unfold result_of, trace_of.
  destruct Hcases as [[Hoff ->]|(url & Hurl & Hne & ->)]; cbn [fst snd].
  - split; [reflexivity|]. split; [rewrite !count_cons, count_nil; simpl; lia|].
    split; [reflexivity|]. intros url Hurl. rewrite Hurl in Hoff.
    destruct url; [congruence|discriminate].
  - split; [reflexivity|]. split; [|split].
    + rewrite !count_cons. cbn [is_http_post].
      assert (count is_http_post (Stdout (F:=F) <$> slack_log (requests_post w)) = 0%nat)
        as ->; [|lia].
      unfold slack_log. destruct (requests_post w) as [resp|e]; [|reflexivity].
      destruct (300 <=? status_code resp); reflexivity.
    + intros Hoff. rewrite Hurl in Hoff. destruct url; [congruence|discriminate].
    + intros url' Hurl' _. rewrite Hurl in Hurl'. injection Hurl' as <-. reflexivity.
Qed.

Lemma post_slack_best_effort_witness :
  trace_of (post_slack Demo.cfg_bare "alert") Demo.hot
  = [Invoke f_post_slack; Stdout "Slack webhook not configured. Message: alert"].
Proof.
  destruct (post_slack_best_effort Demo.cfg_bare "alert" Demo.hot) as (_ & _ & Hoff & _).
  apply Hoff. reflexivity.
Defined.

(** A status of 103 is neither 2xx nor 3xx, and the delivery logs nothing
    for it. *)
Lemma post_slack_status_103_not_logged :
  ((103 <? 200) = true) ∧
  SLACK_WEBHOOK (Demo.cfg true false) = Some "https://hooks.example/services/T0" ∧
  trace_of (post_slack (Demo.cfg true false) "alert")
    (Demo.world_of (Demo.vector []) (Demo.hook 103) (Return tt) (Return "4b825dc")
       (Return tt) (Demo.values_file Demo.values_yaml) (Return tt) (Return "url"))
  = [Invoke f_post_slack; HttpPost "https://hooks.example/services/T0" "alert"].
Proof. repeat split. Qed.

(** ** The values-file update of ProposeChange *)

Lemma tag_placeholder_cons : tag_placeholder = String "t" placeholder_tail.
Proof. reflexivity. Qed.

Lemma tag_line_latest : tag_line "latest" = tag_placeholder.
Proof. reflexivity. Qed.

(** A tag whose line can stand where the placeholder stands, at the same
    length, is "latest". *)
Lemma tag_line_same (new_tag x y : string) :
  String.length (tag_line new_tag) = String.length tag_placeholder →
  tag_line new_tag +:+ x = tag_placeholder +:+ y →
  new_tag = "latest".
Proof.
  unfold tag_line, tag_placeholder. rewrite !str_length_app, !str_app_assoc.
  intros Hlen Heq. do 2 apply str_app_inv_l in Heq.
  apply (str_app_inv_length _ _ _ _ Heq). lia.
Qed.

(** Replacing an occurring placeholder changes the content unless the new
    tag is "latest". *)
Lemma replace_changes (original new_tag : string) :
  PyStr.contains tag_placeholder original = true →
  PyStr.replace tag_placeholder (tag_line new_tag) original = original →
  new_tag = "latest".
Proof.
  rewrite tag_placeholder_cons. intros Hc Hsame.
  pose proof (split_occurs _ _ _ Hc) as Hlen.
  rewrite replace_join_split in Hsame.
  rewrite <- (join_split "t" placeholder_tail original) in Hsame at 2.
  rewrite <- tag_placeholder_cons in *.
  pose proof (join_same_length _ _ _ Hlen Hsame) as Hsep.
  destruct (PyStr.split tag_placeholder original) as [|p0 l]; [simpl in Hlen; lia|].
  rewrite !join_cons in Hsame by (intros ->; simpl in Hlen; lia).
  apply str_app_inv_l in Hsame.
  exact (tag_line_same _ _ _ Hsep Hsame).
Qed.

(** C6.  When the placeholder [tag: "latest"] does not occur in the original
    content, the new content is the original followed by one comment line
    that carries the generated tag.  When it occurs, the original is its
    pieces joined by the placeholder, no piece contains the placeholder, and
    the new content is the same pieces joined by the line of the generated
    tag: every occurrence is replaced.  (A comment line follows only for the
    tag "latest", which the loop never generates.) *)
Theorem helm_update_content (original new_tag : string) :
  let pieces := PyStr.split tag_placeholder original in
  (PyStr.contains tag_placeholder original = false →
   helm_new_content original new_tag
   = original +:+ nl +:+ "# agent update: tag " +:+ new_tag +:+ nl) ∧
  (PyStr.contains tag_placeholder original = true →
   original = PyStr.join tag_placeholder pieces ∧
   Forall (λ piece, PyStr.contains tag_placeholder piece = false) pieces ∧
   (2 ≤ length pieces)%nat ∧
   helm_new_content original new_tag
   = PyStr.join (tag_line new_tag) pieces
     +:+ (if String.eqb new_tag "latest" then tag_comment new_tag else EmptyString)).
Proof.
  intros pieces. subst pieces. unfold helm_new_content. split.
  - intros Habsent. rewrite tag_placeholder_cons in *.
    rewrite (replace_absent _ _ _ _ Habsent), String.eqb_refl. reflexivity.
  - intros Hc. pose proof (replace_changes original new_tag Hc) as Hchg.
    rewrite tag_placeholder_cons in *.
    split; [symmetry; apply join_split|].
    split; [apply split_free|].
    split; [apply split_occurs, Hc|].
    rewrite <- replace_join_split.
    destruct (String.eqb_spec new_tag "latest") as [->|Hne].
    + rewrite tag_line_latest, tag_placeholder_cons, replace_self, String.eqb_refl.
      reflexivity.
    + destruct (String.eqb_spec
                  (PyStr.replace (String "t" placeholder_tail) (tag_line new_tag) original)
                  original) as [Hsame|_].
      * destruct (Hne (Hchg Hsame)).
      * rewrite str_app_nil_r. reflexivity.
Qed.

Lemma helm_update_content_witness :
  PyStr.contains tag_placeholder "replicas: 2" = false ∧
  helm_new_content "replicas: 2" "agent-20240501120000"
  = "replicas: 2" +:+ nl +:+ "# agent update: tag agent-20240501120000" +:+ nl.
Proof.
  split; [reflexivity|].
  apply (helm_update_content "replicas: 2" "agent-20240501120000").
  reflexivity.
Defined.

Example helm_update_replaces :
  helm_new_content Demo.values_yaml "agent-20240501120000"
  = "image:" +:+ nl +:+ "  repository: myapp" +:+ nl +:+ "  tag: " +:+ dq
    +:+ "agent-20240501120000" +:+ dq +:+ nl.
Proof. reflexivity. Qed.

(** ** The sub-steps of ProposeChange *)

Lemma run_eq {F A} (m : M F A) (w : world F) r t :
  result_of m w = r → trace_of m w = t → m w = (r, t).
Proof. unfold result_of, trace_of. destruct (m w). simpl. congruence. Qed.

(** Take the first step of the computation in the goal. *)
Ltac run_step :=
  first
    [ rewrite result_emit_bind | rewrite trace_emit_bind
    | rewrite result_ask_bind | rewrite trace_ask_bind
    | rewrite result_lift_bind | rewrite trace_lift_bind
    | rewrite result_attempt_extcall_bind | rewrite trace_attempt_extcall_bind
    | rewrite result_extcall_bind | rewrite trace_extcall_bind
    | rewrite result_ret | rewrite trace_ret ].

(** C7.  With GitHub configured and the repository and its base branch
    read, each of the four guarded calls of [create_github_pr_update_helm]
    (create the branch, read the file, update the file, open the pull
    request) can fail on its own: the first that raises ends the action,
    which returns [False] with that step's message, and the trace ends with
    the failing call: no later step is attempted and nothing is undone.
    When none raises the action returns [True] with the pull request's
    address. *)
Theorem propose_change_steps {F} `{PyFloat F} (cfg : config F) (new_tag : string)
    (w : world F) (base_sha : string) :
  PyStr.truthy (GITHUB_TOKEN cfg) = true →
  PyStr.truthy (GITHUB_REPO cfg) = true →
  get_repo w = Return tt →
  get_branch w = Return base_sha →
  let run := create_github_pr_update_helm cfg new_tag w in
  let c1 := call_create_ref new_tag w base_sha in
  let c2 := call_get_contents cfg new_tag w in
  let c3 := call_update_file new_tag w in
  let c4 := call_create_pull new_tag w in
  (∀ e, create_git_ref w = Raise e →
     run = (Return (false, "Failed create branch: " +:+ exn_msg e),
            calls_before cfg ++ [c1])) ∧
  (∀ e, create_git_ref w = Return tt → get_contents w = Raise e →
     run = (Return (false, "Failed read helm values: " +:+ exn_msg e),
            calls_before cfg ++ [c1; c2])) ∧
  (∀ contents original e,
     create_git_ref w = Return tt → get_contents w = Return contents →
     decoded contents = Return original → update_file w = Raise e →
     run = (Return (false, "Failed update file: " +:+ exn_msg e),
            calls_before cfg ++ [c1; c2; c3 contents original])) ∧
  (∀ contents original e,
     create_git_ref w = Return tt → get_contents w = Return contents →
     decoded contents = Return original → update_file w = Return tt →
     create_pull w = Raise e →
     run = (Return (false, "Failed create PR: " +:+ exn_msg e),
            calls_before cfg ++ [c1; c2; c3 contents original; c4])) ∧
  (∀ contents original html_url,
     create_git_ref w = Return tt → get_contents w = Return contents →
     decoded contents = Return original → update_file w = Return tt →
     create_pull w = Return html_url →
     run = (Return (true, "PR created: " +:+ html_url),
            calls_before cfg ++ [c1; c2; c3 contents original; c4])).
Proof.
  intros Htoken Hrepo Hget Hbase run c1 c2 c3 c4. subst run c1 c2 c3 c4.
  unfold create_github_pr_update_helm, calls_before, call_create_ref,
    call_get_contents, call_update_file, call_create_pull, branch_name.
  rewrite Htoken, Hrepo. cbn [negb orb]. cbv iota.
  repeat split; intros;
    (apply run_eq;
     repeat first
       [ run_step
       | progress rewrite ?Hget, ?Hbase
       | match goal with Hx : _ = _ |- _ => progress rewrite Hx end ];
     reflexivity).
Qed.

Lemma propose_change_steps_witness :
  create_github_pr_update_helm (Demo.cfg false false) "agent-20240501120000"
    (Demo.world_of (Demo.vector []) (Demo.hook 200) (Return tt) (Return "4b825dc")
       (Return tt) (Raise Demo.down) (Return tt) (Return "url"))
  = (Return (false, "Failed read helm values: connection refused"),
     [Invoke f_create_github_pr_update_helm;
      GhGetRepo "acme/infra";
      GhGetBranch "main";
      GhCreateRef "refs/heads/agent/update-image-agent-20240501120000-1714564800" "4b825dc";
      GhGetContents "helm-chart/myapp/values.yaml"
        "agent/update-image-agent-20240501120000-1714564800"]).
Proof.
  destruct (propose_change_steps (Demo.cfg false false) "agent-20240501120000"
              (Demo.world_of (Demo.vector []) (Demo.hook 200) (Return tt) (Return "4b825dc")
                 (Return tt) (Raise Demo.down) (Return tt) (Return "url"))
              "4b825dc" eq_refl eq_refl eq_refl eq_refl) as (_ & Hread & _).
  exact (Hread Demo.down eq_refl eq_refl).
Defined.

(** ** The cooldown *)




(** ** The remediation planner *)

(** The test of line 80 is the test for "cpu" alone. *)
Lemma planner_test issue_text :
  PyStr.contains "high cpu" (PyStr.lower issue_text)
  || PyStr.contains "cpu" (PyStr.lower issue_text)
  = PyStr.contains "cpu" (PyStr.lower issue_text).
Proof.
  destruct (PyStr.contains "high cpu" (PyStr.lower issue_text)) eqn:Hhigh;
    [|reflexivity].
  symmetry. exact (contains_weaken "high " "cpu" _ Hhigh).
Qed.

(** C9.  When the lowered issue description contains "cpu", the planner
    returns the four lines of the CPU plan joined by line feeds, the first
    being the scale-up recommendation; otherwise it returns the single
    generic line.  The result is a function of the description alone. *)
Theorem planner_is_keyword_lookup (issue_text : string) :
  (PyStr.contains "cpu" (PyStr.lower issue_text) = true →
   simple_llm_reasoning issue_text = PyStr.join nl cpu_plan ∧
   PyStr.split nl (simple_llm_reasoning issue_text) = cpu_plan ∧
   length cpu_plan = 4%nat ∧
   head cpu_plan = Some "Scale up replica count (increase replicas by 1 or 2)") ∧
  (PyStr.contains "cpu" (PyStr.lower issue_text) = false →
   simple_llm_reasoning issue_text
   = "Investigate further, check logs and recent deployments" ∧
   PyStr.split nl (simple_llm_reasoning issue_text) = generic_plan ∧
   length generic_plan = 1%nat).
Proof.
  unfold simple_llm_reasoning. rewrite planner_test.
  split; intros ->; repeat split.
Qed.

Lemma planner_is_keyword_lookup_witness :
  PyStr.contains "cpu" (PyStr.lower "High CPU detected for myapp in default: avg_cpu=0.6")
  = true ∧
  PyStr.split nl
    (simple_llm_reasoning "High CPU detected for myapp in default: avg_cpu=0.6")
  = [ "Scale up replica count (increase replicas by 1 or 2)";
      "Restart pods of the deployment";
      "Check for hot loops / heavy GC in app logs";
      "If persists, create PR to bump resource limits or add HPA" ].
Proof.
  split; [reflexivity|].
  apply (planner_is_keyword_lookup
           "High CPU detected for myapp in default: avg_cpu=0.6").
  reflexivity.
Defined.

(** ** The mode flags *)

(** With dry-run off, a breach enters exactly one mutating action. *)
Lemma breach_mutates {F} `{PyFloat F} (cfg : config F) (poll : Z) (w : world F) :
  DRY_RUN cfg = false → breach_in cfg w = true →
  (invocations f_restart_deployment_k8s (trace_of (main_loop_body cfg poll) w)
   + invocations f_create_github_pr_update_helm (trace_of (main_loop_body cfg poll) w)
   = 1)%nat.
Proof.
  intros Hdry Hb. rewrite !turn_invocations, Hb by auto.
  destruct (remediate_invocations cfg w) as [-> ->].
  rewrite Hdry. destruct (AUTO_APPLY cfg); reflexivity.
Qed.

(** C10.  [DRY_RUN] is true exactly when the value of the variable, "true"
    when it is unset, lowers to "true"; [AUTO_APPLY] likewise with "false"
    when unset.  So any other value, "1" and "yes" among them, turns
    dry-run off, and a breach then enters a mutating action. *)
Theorem flags_parse {F} `{PyFloat F} (environ : gmap string string) (cfg : config F) :
  load_config environ = Return cfg →
  (DRY_RUN cfg = true ↔ PyStr.lower (default "true" (environ !! "DRY_RUN")) = "true") ∧
  (AUTO_APPLY cfg = true ↔
   PyStr.lower (default "false" (environ !! "AUTO_APPLY")) = "true") ∧
  (environ !! "DRY_RUN" = None → DRY_RUN cfg = true) ∧
  (environ !! "AUTO_APPLY" = None → AUTO_APPLY cfg = false) ∧
  (∀ v, environ !! "DRY_RUN" = Some v → PyStr.lower v ≠ "true" →
     DRY_RUN cfg = false ∧
     ∀ poll w, breach_in cfg w = true →
       (invocations f_restart_deployment_k8s (trace_of (main_loop_body cfg poll) w)
        + invocations f_create_github_pr_update_helm
            (trace_of (main_loop_body cfg poll) w) = 1)%nat) ∧
  (∀ v, environ !! "DRY_RUN" = Some v → v = "1" ∨ v = "yes" → DRY_RUN cfg = false).
Proof.
  unfold load_config. destruct (float_of_str _) as [threshold|]; [|discriminate].
  intros [= <-]. cbn [DRY_RUN AUTO_APPLY]. unfold flag, getenv_or.
  assert (Hother : ∀ v, environ !! "DRY_RUN" = Some v → PyStr.lower v ≠ "true" →
            String.eqb (PyStr.lower (default "true" (environ !! "DRY_RUN"))) "true" = false).
  { intros v -> Hv. apply String.eqb_neq. exact Hv. }
  split; [apply String.eqb_eq|]. split; [apply String.eqb_eq|].
  split; [intros ->; reflexivity|]. split; [intros ->; reflexivity|]. split.
  - intros v Hv Hne. split; [exact (Hother v Hv Hne)|].
    intros poll w Hb. apply breach_mutates; [|exact Hb].
    exact (Hother v Hv Hne).
  - intros v Hv [-> | ->]; apply (Hother _ Hv); discriminate.
Qed.

Lemma flags_parse_witness :
  ∃ cfg : config Q,
    load_config {[ "DRY_RUN" := "yes"; "AUTO_APPLY" := "TRUE" ]} = Return cfg ∧
    DRY_RUN cfg = false ∧ AUTO_APPLY cfg = true.
Proof.
  destruct (load_config (F:=Q) {[ "DRY_RUN" := "yes"; "AUTO_APPLY" := "TRUE" ]})
    as [cfg|e] eqn:Hload; [|vm_compute in Hload; discriminate].
  exists cfg. split; [reflexivity|].
  destruct (flags_parse _ cfg Hload) as (_ & Hauto & _ & _ & _ & Hyes).
  split.
  - apply (Hyes "yes"); [reflexivity | right; reflexivity].
  - apply Hauto. reflexivity.
Defined.

(** ** Further properties of the loop *)

(** The issue text that [main_loop] builds always contains "cpu", so the
    plan of a breach is always the CPU plan. *)
Theorem loop_plan_is_cpu_plan {F} `{PyFloat F} (cfg : config F) (avg_cpu : F) :
  simple_llm_reasoning (issue_text_of cfg avg_cpu) = PyStr.join nl cpu_plan.
Proof.
  unfold simple_llm_reasoning. rewrite planner_test.
  assert (Hcpu : PyStr.contains "cpu" (PyStr.lower (issue_text_of cfg avg_cpu)) = true).
  { unfold issue_text_of. rewrite lower_app. apply contains_iff.
    exists "high ", (" detected for " +:+
                     PyStr.lower (DEPLOYMENT_NAME cfg +:+ " in " +:+ NAMESPACE cfg
                                  +:+ ": avg_cpu=" +:+ frepr avg_cpu)).
    reflexivity. }
  rewrite Hcpu. reflexivity.
Qed.

(** In the mode that proposes a change, an exception of a call that
    [create_github_pr_update_helm] leaves outside its [try] blocks leaves
    the turn too: the turn does not sleep, and the loop ends with it. *)
Theorem unguarded_failure_ends_loop {F} `{PyFloat F} (cfg : config F) (poll : Z)
    (w : world F) :
  breach_in cfg w = true →
  DRY_RUN cfg = false →
  AUTO_APPLY cfg = false →
  propose_unguarded_ok cfg w = false →
  is_return (result_of (main_loop_body cfg poll) w) = false ∧
  sleeps (trace_of (main_loop_body cfg poll) w) = [] ∧
  ∀ ws, main_loop_turns cfg poll (w :: ws) = main_loop_body cfg poll w.
Proof.
  intros Hb Hdry Hauto Hbad.
  destruct (turn_sleeps cfg poll w) as (Hrun & _ & _ & Hends).
  destruct Hends as [Hres Hsleeps]; [exact Hb| |].
  { rewrite remediate_returns, Hdry, Hauto, Hbad. reflexivity. }
  split; [exact Hres|]. split; [exact Hsleeps|].
  intros ws. cbn [main_loop_turns]. rewrite Hrun in *.
  destruct (result_of (main_loop_body cfg poll) w); [discriminate | reflexivity].
Qed.

Lemma unguarded_failure_ends_loop_witness :
  result_of (main_loop_body (Demo.cfg false false) 30) Demo.hot_no_repo
  = Raise (Exn "UnknownObjectException" "404 Not Found") ∧
  sleeps (trace_of (main_loop_body (Demo.cfg false false) 30) Demo.hot_no_repo) = [].
Proof.
  destruct (unguarded_failure_ends_loop (Demo.cfg false false) 30 Demo.hot_no_repo)
    as (_ & Hsleeps & _); try (vm_compute; reflexivity).
  split; [vm_compute; reflexivity | exact Hsleeps].
Defined.

(** ** The average over exact numbers *)

Lemma fold_left_Qplus (l : list Q) (a : Q) :
  (fold_left Qplus l a == a + fold_right Qplus 0 l)%Q.
Proof.
  revert a. induction l as [|x l IH]; intros a; simpl.
  - ring.
  - rewrite IH. ring.
Qed.

(** With exact arithmetic the sampler's average is the arithmetic mean:
    the sum of the values, each taken once, over their number. *)
Lemma Q_average_is_mean (values : list Q) :
  values ≠ [] →
  (average values == fold_right Qplus 0 values / inject_Z (Z.of_nat (length values)))%Q.
Proof.
  intros Hne. destruct values as [|v values]; [congruence|].
  unfold average. cbn [fdiv_int fsum QFloat.Q_float].
  rewrite !Qred_correct, fold_left_Qplus. apply Qdiv_comp; [ring | reflexivity].
Qed.

(** ** The loop over many turns *)

Section LoopFacts.
Context {F : Type} `{PyFloat F}.
Variable cfg : config F.
Implicit Types (w : world F) (p : event F → bool) (ws : list (world F)).


Lemma count_zero_printed (t : list (event F)) : count is_stdout t = 0%nat → printed t = [].
Proof.
  induction t as [|ev t IH]; [reflexivity|].
  rewrite count_cons. destruct ev; simpl; intros Hc; try (apply IH; lia); lia.
Qed.

Lemma count_try_except_silent {A} p (m : M F A) (h : exn → M F A) w :
  (∀ e, silent p (h e)) →
  count p (trace_of (try_except m h) w) = count p (trace_of m w).
Proof.
  intros Hh. rewrite trace_try_except, count_app.
  destruct (result_of m w) as [a|e]; [rewrite count_nil; lia|].
  rewrite (Hh e w). lia.
Qed.

(** Both sleeps of the loop return when the interval is not negative and
    twice the interval is no longer than [max_sleep]. *)
Lemma turn_sleep_returns poll w :
  0 ≤ poll → poll * 2 ≤ max_sleep →
  is_return (sleep_outcome (turn_sleep cfg poll w)) = true.
Proof.
  intros Hlo Hhi. apply sleep_returns_iff. unfold turn_sleep, max_sleep in *.
  destruct (breach_in cfg w); lia.
Qed.

(** A turn returns unless an exception leaves its remediation step or its
    sleep. *)
Lemma turn_returns poll w :
  is_return (result_of (main_loop_body cfg poll) w)
  = (negb (breach_in cfg w) || is_return (result_of (remediate cfg) w))
    && is_return (sleep_outcome (turn_sleep cfg poll w)).
Proof.
  destruct (turn_sleeps cfg poll w) as (_ & Hquiet & Hlong & Hends).
  unfold turn_sleep. destruct (breach_in cfg w); cbn [negb orb].
  - destruct (is_return (result_of (remediate cfg) w)) eqn:Hr.
    + destruct (Hlong eq_refl eq_refl) as [-> _]. reflexivity.
    + destruct (Hends eq_refl eq_refl) as [Hres _]. exact Hres.
  - destruct (Hquiet eq_refl) as [-> _]. reflexivity.
Qed.

(** A turn that returns slept once, for the time its sample calls for. *)
Lemma turn_returned_sleep poll w :
  is_return (result_of (main_loop_body cfg poll) w) = true →
  result_of (main_loop_body cfg poll) w = Return tt ∧
  sleeps (trace_of (main_loop_body cfg poll) w) = [turn_sleep cfg poll w].
Proof.
  intros Hret. split.
  { destruct (result_of (main_loop_body cfg poll) w) as [[]|e];
      [reflexivity | discriminate]. }
  rewrite turn_returns in Hret. apply andb_true_iff in Hret as [Hr _].
  unfold turn_sleep.
  destruct (turn_sleeps cfg poll w) as (_ & Hquiet & Hlong & _).
  destruct (breach_in cfg w); cbn [negb orb] in Hr.
  - exact (proj2 (Hlong eq_refl Hr)).
  - exact (proj2 (Hquiet eq_refl)).
Qed.

(** What no turn does, the loop never does. *)
Lemma loop_silent poll p :
  silent p (main_loop_body cfg poll) →
  ∀ ws, count p (main_loop_turns cfg poll ws).2 = 0%nat.
Proof.
  intros Hs. induction ws as [|w ws IH]; [reflexivity|].
  cbn [main_loop_turns]. specialize (Hs w). unfold trace_of in Hs.
  destruct (main_loop_body cfg poll w) as [[u|e] t]; cbn [snd] in *; [|exact Hs].
  destruct (main_loop_turns cfg poll ws) as [r t']. cbn [snd] in *.
  rewrite count_app, Hs, IH. reflexivity.
Qed.

(** When every turn returns, the loop goes on, and sleeps once per turn. *)
Lemma loop_returns poll :
  (∀ w, is_return (result_of (main_loop_body cfg poll) w) = true) →
  ∀ ws, (main_loop_turns cfg poll ws).1 = Return tt ∧
        sleeps (main_loop_turns cfg poll ws).2 = turn_sleep cfg poll <$> ws.
Proof.
  intros Hret. induction ws as [|w ws [IHr IHs]]; [split; reflexivity|].
  cbn [main_loop_turns].
  destruct (turn_returned_sleep poll w (Hret w)) as [Hres Hsl].
  unfold result_of, trace_of in *.
  destruct (main_loop_body cfg poll w) as [r t]. cbn [fst snd] in *. subst r.
  destruct (main_loop_turns cfg poll ws) as [r' t']. cbn [fst snd] in *.
  split; [exact IHr|]. rewrite sleeps_app, Hsl, IHs. reflexivity.
Qed.

(** The loop behind its first line. *)
Lemma main_loop_run poll ws :
  (main_loop cfg poll ws).1 = (main_loop_turns cfg poll ws).1 ∧
  ∃ line, (main_loop cfg poll ws).2 = Stdout line :: (main_loop_turns cfg poll ws).2.
Proof.
  unfold main_loop. destruct (main_loop_turns cfg poll ws) as [r t].
  split; [reflexivity|]. eexists. reflexivity.
Qed.

(** The turns of each mode, by the systems they leave alone. *)
Lemma dry_run_turn_silent poll p :
  DRY_RUN cfg = true →
  (∀ f, p (Invoke f) = false) →
  (∀ line, p (Stdout line) = false) →
  (∀ a, p (StdoutAction a) = false) →
  (∀ url q, p (HttpGet url q) = false) →
  (∀ url b, p (HttpPost url b) = false) →
  (∀ s, p (Sleep s) = false) →
  silent p (main_loop_body cfg poll).
Proof.
  intros Hdry Hi Ho Ha Hg Hp Hs.
  unfold main_loop_body, remediate. rewrite Hdry. unfold_agent.
  repeat first
    [ progress intros
    | apply silent_ret | apply silent_raise | apply silent_lift | apply silent_ask
    | apply silent_emit; solve [apply Hi | apply Ho | apply Ha | apply Hs]
    | apply silent_extcall; solve [apply Hg | apply Hp]
    | apply silent_attempt
    | apply silent_try_except
    | apply silent_bind
    | match goal with
      | |- silent _ (if ?b then _ else _) => destruct b
      | |- silent _ (match ?x with _ => _ end) => destruct x
      end ].
Qed.

End LoopFacts.

(** ** The modes, over the whole loop *)

(** In dry-run, with an interval that [time.sleep] takes also when doubled
    (not negative, twice it at most [max_sleep]), the loop never ends by an
    exception, calls neither the cluster nor GitHub in any turn, and sleeps
    once per turn: twice the interval after a breach, the interval
    otherwise. *)
Theorem dry_run_loop_is_safe {F} `{PyFloat F} (cfg : config F) (poll : Z)
    (ws : list (world F)) :
  DRY_RUN cfg = true →
  0 ≤ poll →
  poll * 2 ≤ max_sleep →
  (main_loop cfg poll ws).1 = Return tt ∧
  count is_kube (main_loop cfg poll ws).2 = 0%nat ∧
  count is_github (main_loop cfg poll ws).2 = 0%nat ∧
  sleeps (main_loop cfg poll ws).2 = turn_sleep cfg poll <$> ws.
Proof.
  intros Hdry Hlo Hhi.
  destruct (main_loop_run cfg poll ws) as [-> [line ->]].
  assert (Hret : ∀ w, is_return (result_of (main_loop_body cfg poll) w) = true).
  { intros w. rewrite turn_returns, remediate_returns, Hdry.
    rewrite (turn_sleep_returns cfg poll w Hlo Hhi). rewrite orb_true_r. reflexivity. }
  destruct (loop_returns cfg poll Hret ws) as [Hr Hs].
  split; [exact Hr|]. rewrite !count_cons. cbn [is_kube is_github].
  rewrite !loop_silent by (apply dry_run_turn_silent; auto).
  split; [reflexivity|]. split; [reflexivity|].
  rewrite sleeps_cons_other by reflexivity. exact Hs.
Qed.

Lemma dry_run_loop_is_safe_witness :
  (main_loop (Demo.cfg true true) 30 [Demo.hot; Demo.calm; Demo.hot_no_repo]).1 = Return tt ∧
  sleeps (main_loop (Demo.cfg true true) 30 [Demo.hot; Demo.calm; Demo.hot_no_repo]).2
  = [60; 30; 60].
Proof.
  destruct (dry_run_loop_is_safe (Demo.cfg true true) 30
              [Demo.hot; Demo.calm; Demo.hot_no_repo] eq_refl)
    as (Hr & _ & _ & Hs); [unfold max_sleep; lia ..|].
  split; [exact Hr|]. rewrite Hs. vm_compute. reflexivity.
Defined.

(** With dry-run off and auto-apply on, and an interval that [time.sleep]
    takes also when doubled, the loop never ends by an exception either (the
    restart reports every failure as a flag), it never calls GitHub, and it
    sleeps once per turn. *)
Theorem auto_apply_loop_never_ends {F} `{PyFloat F} (cfg : config F) (poll : Z)
    (ws : list (world F)) :
  DRY_RUN cfg = false →
  AUTO_APPLY cfg = true →
  0 ≤ poll →
  poll * 2 ≤ max_sleep →
  (main_loop cfg poll ws).1 = Return tt ∧
  count is_github (main_loop cfg poll ws).2 = 0%nat ∧
  sleeps (main_loop cfg poll ws).2 = turn_sleep cfg poll <$> ws.
Proof.
  intros Hdry Hauto Hlo Hhi.
  destruct (main_loop_run cfg poll ws) as [-> [line ->]].
  assert (Hret : ∀ w, is_return (result_of (main_loop_body cfg poll) w) = true).
  { intros w. rewrite turn_returns, remediate_returns, Hdry, Hauto.
    rewrite (turn_sleep_returns cfg poll w Hlo Hhi). rewrite orb_true_r. reflexivity. }
  destruct (loop_returns cfg poll Hret ws) as [Hr Hs].
  split; [exact Hr|]. rewrite count_cons. cbn [is_github].
  rewrite loop_silent.
  - split; [reflexivity|]. rewrite sleeps_cons_other by reflexivity. exact Hs.
  - unfold main_loop_body, remediate. rewrite Hdry, Hauto. solve_silent.
Qed.

Lemma auto_apply_loop_never_ends_witness :
  (main_loop (Demo.cfg false true) 30 [Demo.hot_no_repo; Demo.calm]).1 = Return tt ∧
  sleeps (main_loop (Demo.cfg false true) 30 [Demo.hot_no_repo; Demo.calm]).2 = [60; 30].
Proof.
  destruct (auto_apply_loop_never_ends (Demo.cfg false true) 30
              [Demo.hot_no_repo; Demo.calm] eq_refl eq_refl)
    as (Hr & _ & Hs); [unfold max_sleep; lia ..|].
  split; [exact Hr|]. rewrite Hs. vm_compute. reflexivity.
Defined.

(** With auto-apply off the loop never calls the cluster, whatever dry-run
    is and however the loop ends. *)
Theorem propose_mode_leaves_cluster {F} `{PyFloat F} (cfg : config F) (poll : Z)
    (ws : list (world F)) :
  AUTO_APPLY cfg = false →
  count is_kube (main_loop cfg poll ws).2 = 0%nat.
Proof.
  intros Hauto.
  destruct (main_loop_run cfg poll ws) as [_ [line ->]].
  rewrite count_cons. cbn [is_kube]. rewrite loop_silent; [reflexivity|].
  unfold main_loop_body, remediate. rewrite Hauto. solve_silent.
Qed.

Lemma propose_mode_leaves_cluster_witness :
  count is_kube (main_loop (Demo.cfg false false) 30 [Demo.hot; Demo.hot_no_repo; Demo.hot]).2
  = 0%nat ∧
  (main_loop (Demo.cfg false false) 30 [Demo.hot; Demo.hot_no_repo; Demo.hot]).1
  = Raise (Exn "UnknownObjectException" "404 Not Found").
Proof.
  split; [|vm_compute; reflexivity].
  apply (propose_mode_leaves_cluster (Demo.cfg false false) 30
           [Demo.hot; Demo.hot_no_repo; Demo.hot]).
  reflexivity.
Defined.

(** ** Start-up and the defaults *)

(** When neither the environment nor the dotenv file sets [DRY_RUN] and the
    threshold parses, the process never ends by an exception and never calls
    the cluster or GitHub, whatever [AUTO_APPLY] and the other settings are. *)
Theorem safe_by_default {F} `{PyFloat F} (file environ : gmap string string)
    (threshold : F) (ws : list (world F)) :
  environ !! "DRY_RUN" = None →
  file !! "DRY_RUN" = None →
  float_of_str (getenv_or (load_dotenv file environ) "CPU_THRESHOLD" "0.5")
  = Some threshold →
  (agent_process file environ ws).1 = Return tt ∧
  count is_kube (agent_process file environ ws).2 = 0%nat ∧
  count is_github (agent_process file environ ws).2 = 0%nat.
Proof.
  intros Henv Hfile Hthr. unfold agent_process, load_config. rewrite Hthr.
  match goal with |- context [main_loop ?c 30 ws] => set (cfg := c) end.
  assert (Hdry : DRY_RUN cfg = true).
  { subst cfg. cbn [DRY_RUN]. unfold flag, getenv_or, load_dotenv.
    assert ((environ ∪ file) !! "DRY_RUN" = None) as ->
      by (apply lookup_union_None; split; assumption).
    reflexivity. }
  destruct (main_loop_run cfg 30 ws) as [-> [line ->]].
  assert (Hret : ∀ w, is_return (result_of (main_loop_body cfg 30) w) = true).
  { intros w. rewrite turn_returns, remediate_returns, Hdry.
    rewrite (turn_sleep_returns cfg 30 w) by (unfold max_sleep; lia).
    rewrite orb_true_r. reflexivity. }
  split; [apply (loop_returns cfg 30 Hret ws)|].
  rewrite !count_cons. cbn [is_kube is_github].
  rewrite !loop_silent by (apply dry_run_turn_silent; auto).
  split; reflexivity.
Qed.

Lemma safe_by_default_witness :
  (agent_process (F:=Q) {[ "NAMESPACE" := "prod" ]}
     {[ "AUTO_APPLY" := "true"; "PROMETHEUS_URL" := "http://prometheus:9090" ]}
     [Demo.hot; Demo.hot_no_repo]).1 = Return tt ∧
  count is_kube
    (agent_process (F:=Q) {[ "NAMESPACE" := "prod" ]}
       {[ "AUTO_APPLY" := "true"; "PROMETHEUS_URL" := "http://prometheus:9090" ]}
       [Demo.hot; Demo.hot_no_repo]).2 = 0%nat.
Proof.
  destruct (safe_by_default (F:=Q) {[ "NAMESPACE" := "prod" ]}
              {[ "AUTO_APPLY" := "true"; "PROMETHEUS_URL" := "http://prometheus:9090" ]}
              (1 # 2) [Demo.hot; Demo.hot_no_repo]) as (Hr & Hk & _);
    try (vm_compute; reflexivity).
  split; [exact Hr | exact Hk].
Defined.



(** ** The requests of a turn *)

Section Requests.
Context {F : Type} `{PyFloat F}.
Variable cfg : config F.
Implicit Types (w : world F).

Lemma query_get_count q w :
  count is_http_get (trace_of (query_prometheus cfg q) w)
  = if PyStr.truthy (PROM_URL cfg) then 1%nat else 0%nat.
Proof.
  unfold query_prometheus. rewrite trace_emit_bind, count_cons. cbn [is_http_get].
  destruct (PyStr.truthy (PROM_URL cfg)); cbn [negb]; [|reflexivity].
  cbv zeta. rewrite trace_extcall_bind, count_cons. cbn [is_http_get].
  destruct (requests_get w) as [r|e]; [|reflexivity].
  assert (Hs : silent is_http_get
                 (lift (F:=F) (raise_for_status r) ≫= λ _, lift (json_body r)))
    by step_silent.
  rewrite (Hs w). reflexivity.
Qed.

Lemma sampler_get_count dn ns w :
  count is_http_get (trace_of (get_average_cpu_for_deployment cfg dn ns) w)
  = if PyStr.truthy (PROM_URL cfg) then 1%nat else 0%nat.
Proof.
  unfold get_average_cpu_for_deployment. rewrite trace_emit_bind, count_cons.
  cbn [is_http_get]. cbv zeta.
  rewrite count_try_except_silent by step_silent.
  rewrite (count_bind_silent is_http_get) by step_silent.
  apply query_get_count.
Qed.

Lemma post_slack_post_count text w :
  count is_http_post (trace_of (post_slack cfg text) w)
  = if PyStr.truthy (SLACK_WEBHOOK cfg) then 1%nat else 0%nat.
Proof.
  unfold post_slack. rewrite trace_emit_bind, count_cons. cbn [is_http_post].
  destruct (PyStr.truthy (SLACK_WEBHOOK cfg)); cbn [negb]; [|reflexivity].
  rewrite count_try_except_silent by step_silent.
  rewrite trace_extcall_bind, count_cons. cbn [is_http_post].
  destruct (requests_post w) as [r|e]; [|reflexivity].
  destruct (300 <=? status_code r); reflexivity.
Qed.

End Requests.

(** Every turn asks the metric source once when its address is configured,
    and not at all otherwise; it posts to the webhook once when the sample
    is a breach and a webhook is configured, and not at all otherwise.  No
    request is repeated within a turn. *)
Theorem turn_requests {F} `{PyFloat F} (cfg : config F) (poll : Z) (w : world F) :
  count is_http_get (trace_of (main_loop_body cfg poll) w)
  = (if PyStr.truthy (PROM_URL cfg) then 1 else 0)%nat ∧
  count is_http_post (trace_of (main_loop_body cfg poll) w)
  = (if breach_in cfg w && PyStr.truthy (SLACK_WEBHOOK cfg) then 1 else 0)%nat.
Proof.
  destruct (main_loop_body_run cfg poll w) as (results & _ & Hrun).
  unfold trace_of. rewrite Hrun. clear Hrun. cbv zeta.
  assert (Hsg : silent is_http_get (remediate cfg)) by solve_silent.
  assert (Hsp : silent is_http_post (remediate cfg)) by solve_silent.
  assert (Hpg : ∀ text, silent is_http_get (post_slack cfg text))
    by (intros text; solve_silent).
  assert (Hgp : silent is_http_post
                  (get_average_cpu_for_deployment cfg (DEPLOYMENT_NAME cfg) (NAMESPACE cfg)))
    by solve_silent.
  destruct (breach_in cfg w); cbn [andb].
  - destruct (result_of (remediate cfg) w); cbn [snd];
      rewrite !count_app, !count_cons, !count_nil, !sampler_get_count,
        !post_slack_post_count, Hsg, Hsp, Hpg, Hgp;
      cbn [is_http_get is_http_post];
      destruct (PyStr.truthy (PROM_URL cfg)), (PyStr.truthy (SLACK_WEBHOOK cfg));
      split; reflexivity.
  - cbn [snd]. rewrite !count_app, !count_cons, !count_nil, sampler_get_count, Hgp.
    cbn [is_http_get is_http_post].
    destruct (PyStr.truthy (PROM_URL cfg)); split; reflexivity.
Qed.

(** ** The restart *)

(** [restart_deployment_k8s] never raises.  It tries the in-cluster
    credentials only when the local kube config does not load; when neither
    loads it logs that, returns [False] with the second error and does not
    patch; otherwise it patches once and returns [True] with "patched", or
    [False] with the error of the patch. *)
Theorem restart_outcomes {F} (dn ns : string) (w : world F) :
  restart_deployment_k8s dn ns w
  = match load_kube_config w, load_incluster_config w with
    | Raise _, Raise e =>
        (Return (false, exn_msg e),
         Invoke f_restart_deployment_k8s :: config_calls w
         ++ [Stdout ("Failed to load kube config: " +:+ exn_msg e)])
    | _, _ =>
        (Return match patch_namespaced_deployment w with
                | Return _ => (true, "patched")
                | Raise e => (false, exn_msg e)
                end,
         Invoke f_restart_deployment_k8s :: config_calls w
         ++ [KubePatch dn ns (utcnow_restart w)])
    end.
Proof.
  unfold restart_deployment_k8s, config_calls.
  destruct (load_kube_config w) as [[]|e1] eqn:Hk;
    destruct (load_incluster_config w) as [[]|e2] eqn:Hi;
    destruct (patch_namespaced_deployment w) as [[]|e3] eqn:Hp;
    (apply run_eq;
     repeat first
       [ run_step
       | rewrite result_try_except | rewrite trace_try_except
       | rewrite result_bind | rewrite trace_bind
       | rewrite Hk | rewrite Hi | rewrite Hp ];
     reflexivity).
Qed.

(** ** ProposeChange: configuration, branch name, new content *)

(** In the mode that proposes a change, when the GitHub token or repository
    is unset or empty, the remediation step calls nothing outside: the
    action returns [False] with "GitHub not configured", and the step prints
    and logs that result and returns. *)
Theorem propose_without_github {F} `{PyFloat F} (cfg : config F) (w : world F) :
  DRY_RUN cfg = false →
  AUTO_APPLY cfg = false →
  PyStr.truthy (GITHUB_TOKEN cfg) && PyStr.truthy (GITHUB_REPO cfg) = false →
  remediate cfg w
  = (Return tt,
     [Invoke f_create_github_pr_update_helm;
      Stdout "create pr result: False GitHub not configured";
      Invoke f_log_action;
      StdoutAction (ApplyResult "pr_ok" false "GitHub not configured")]).
Proof.
  intros Hdry Hauto Hgh. unfold remediate. rewrite Hdry, Hauto.
  assert (Hcond : negb (PyStr.truthy (GITHUB_TOKEN cfg))
                  || negb (PyStr.truthy (GITHUB_REPO cfg)) = true).
  { destruct (PyStr.truthy (GITHUB_TOKEN cfg)), (PyStr.truthy (GITHUB_REPO cfg));
      (discriminate || reflexivity). }
  unfold create_github_pr_update_helm.
  apply run_eq;
    repeat first
      [ run_step | rewrite result_bind | rewrite trace_bind | rewrite Hcond ];
    reflexivity.
Qed.

Lemma propose_without_github_witness :
  remediate
    {| PROM_URL := None; NAMESPACE := "default"; DEPLOYMENT_NAME := "myapp";
       SLACK_WEBHOOK := None; GITHUB_TOKEN := Some EmptyString;
       GITHUB_REPO := Some "acme/infra"; DRY_RUN := false; AUTO_APPLY := false;
       HELM_VALUES_PATH := "values.yaml"; IMAGE_REPO := "myapp";
       CPU_THRESHOLD := 1 # 2 |} Demo.hot
  = (Return tt,
     [Invoke f_create_github_pr_update_helm;
      Stdout "create pr result: False GitHub not configured";
      Invoke f_log_action;
      StdoutAction (ApplyResult "pr_ok" false "GitHub not configured")]).
Proof.
  apply (propose_without_github
           {| PROM_URL := None; NAMESPACE := "default"; DEPLOYMENT_NAME := "myapp";
              SLACK_WEBHOOK := None; GITHUB_TOKEN := Some EmptyString;
              GITHUB_REPO := Some "acme/infra"; DRY_RUN := false; AUTO_APPLY := false;
              HELM_VALUES_PATH := "values.yaml"; IMAGE_REPO := "myapp";
              CPU_THRESHOLD := 1 # 2 |} Demo.hot); reflexivity.
Defined.

Section BranchName.
Implicit Types (s : string) (c : ascii).

Lemma contains_dot_cons c s :
  PyStr.contains "." (String c s) = Ascii.eqb c "." || PyStr.contains "." s.
Proof.
  rewrite contains_cons. f_equal. rewrite prefix_cons, prefix_nil.
  destruct (ascii_dec "." c) as [<-|Hne]; [reflexivity|].
  symmetry. apply Ascii.eqb_neq. congruence.
Qed.

Lemma replace_dots_cons c s :
  PyStr.replace "." "-" (String c s)
  = String (if Ascii.eqb c "." then "-"%char else c) (PyStr.replace "." "-" s).
Proof.
  destruct (Ascii.eqb_spec c ".") as [->|Hne].
  - rewrite (replace_match "." EmptyString)
      by (rewrite prefix_cons, prefix_nil; reflexivity).
    reflexivity.
  - rewrite (replace_skip_char "." EmptyString); [reflexivity|].
    rewrite prefix_cons. destruct (ascii_dec "." c); [congruence | reflexivity].
Qed.

(** The replacement of line 125 is the character-wise one. *)
Lemma replace_dots_map s : PyStr.replace "." "-" s = dots_to_dashes s.
Proof.
  induction s as [|c s IH]; [reflexivity|].
  rewrite replace_dots_cons, IH. reflexivity.
Qed.

Lemma dots_to_dashes_free s : PyStr.contains "." (dots_to_dashes s) = false.
Proof.
  induction s as [|c s IH]; [reflexivity|].
  cbn [dots_to_dashes]. rewrite contains_dot_cons, IH.
  destruct (Ascii.eqb_spec c ".") as [->|Hne]; [reflexivity|].
  apply Ascii.eqb_neq in Hne. rewrite Hne. reflexivity.
Qed.

Lemma dots_to_dashes_length s : String.length (dots_to_dashes s) = String.length s.
Proof.
  induction s as [|c s IH]; [reflexivity|].
  cbn [dots_to_dashes String.length]. rewrite IH. reflexivity.
Qed.

End BranchName.

(** The branch of a proposed change is "agent/update-image-", then the tag
    with each dot turned into a dash and every other character kept in its
    place, then a dash and the time.  So the tag part has the length of the
    tag, holds no dot, and is the tag itself when the tag has no dot. *)
Theorem branch_name_has_no_tag_dots {F} (new_tag : string) (w : world F) :
  branch_name new_tag w
  = "agent/update-image-" +:+ dots_to_dashes new_tag +:+ "-" +:+ pretty (time_time w) ∧
  PyStr.contains "." (dots_to_dashes new_tag) = false ∧
  String.length (dots_to_dashes new_tag) = String.length new_tag ∧
  (PyStr.contains "." new_tag = false → dots_to_dashes new_tag = new_tag).
Proof.
  unfold branch_name. rewrite replace_dots_map. split; [reflexivity|].
  split; [apply dots_to_dashes_free|]. split; [apply dots_to_dashes_length|].
  rewrite <- replace_dots_map. apply (replace_absent "." EmptyString).
Qed.

(** The content committed by a proposed change always differs from the
    content read: either a placeholder was replaced, or the comment line was
    appended. *)
Theorem helm_update_changes_content (original new_tag : string) :
  helm_new_content original new_tag ≠ original.
Proof.
  unfold helm_new_content.
  destruct (String.eqb_spec
              (PyStr.replace tag_placeholder (tag_line new_tag) original) original)
    as [_|Hne]; [|exact Hne].
  intros Heq. apply (f_equal String.length) in Heq.
  unfold tag_comment in Heq. rewrite !str_length_app in Heq.
  cbn [nl String.length] in Heq. lia.
Qed.

(** ** The sampler: unreadable series, missing keys, the address *)

Section SamplerEdges.
Context {F : Type} `{PyFloat F}.
Variable cfg : config F.
Implicit Types (w : world F).

(** The sampler's run: the query's trace, and one log line when the [try]
    block raised. *)
Lemma sampler_run dn ns w :
  get_average_cpu_for_deployment cfg dn ns w
  = (match sample_try cfg dn ns w with
     | Return r => Return r
     | Raise _ => Return (fzero, JArr [])
     end,
     Invoke f_get_average_cpu_for_deployment
     :: trace_of (query_prometheus cfg (prom_query dn ns)) w
     ++ match sample_try cfg dn ns w with
        | Return _ => []
        | Raise e => [Stdout ("Prom query error: " +:+ exn_msg e)]
        end).
Proof.
  apply run_eq.
  - rewrite sampler_result. unfold sample_try.
    destruct (result_of (query_prometheus cfg (prom_query dn ns)) w); reflexivity.
  - unfold get_average_cpu_for_deployment, sample_try. cbv zeta.
    rewrite trace_emit_bind, trace_try_except, trace_bind, result_bind. f_equal.
    rewrite <- app_assoc. f_equal.
    destruct (result_of (query_prometheus cfg (prom_query dn ns)) w) as [data|e];
      [|reflexivity].
    cbn [mbind outcome_bind].
    rewrite trace_lift_bind, result_lift_bind.
    destruct (py_get data "data" (JObj ∅)) as [d|e]; [|reflexivity].
    cbn [mbind outcome_bind]. rewrite trace_lift_bind, result_lift_bind.
    destruct (py_get d "result" (JArr [])) as [results|e]; [|reflexivity].
    cbn [mbind outcome_bind]. rewrite trace_lift_bind, result_lift_bind.
    destruct (py_iter results) as [items|e]; [|reflexivity].
    cbn [mbind outcome_bind]. rewrite trace_lift_bind, result_lift_bind.
    destruct (mapM reading items) as [values|e]; reflexivity.
Qed.

Lemma query_prints_nothing q w : printed (trace_of (query_prometheus cfg q) w) = [].
Proof.
  apply count_zero_printed.
  assert (Hs : silent is_stdout (query_prometheus cfg q)) by solve_silent.
  apply Hs.
Qed.


Lemma rstrip_snoc c s :
  PyStr.rstrip c (s +:+ String c EmptyString) = PyStr.rstrip c s.
Proof.
  induction s as [|a s IH].
  - simpl. rewrite Ascii.eqb_refl. reflexivity.
  - rewrite str_app_cons. cbn [PyStr.rstrip]. rewrite IH. reflexivity.
Qed.

End SamplerEdges.



(** An answer that is a JSON object without a "data" key, or whose "data"
    object has no "result" key, counts as no data: the sampler returns 0.0
    and an empty list and logs nothing. *)
Theorem missing_keys_are_no_data {F} `{PyFloat F} (cfg : config F) (dn ns : string)
    (w : world F) (m : gmap string (json F)) :
  result_of (query_prometheus cfg (prom_query dn ns)) w = Return (JObj m) →
  (m !! "data" = None ∨
   ∃ m', m !! "data" = Some (JObj m') ∧ m' !! "result" = None) →
  result_of (get_average_cpu_for_deployment cfg dn ns) w = Return (fzero, JArr []) ∧
  printed (trace_of (get_average_cpu_for_deployment cfg dn ns) w) = [].
Proof.
  intros Hq Hkeys.
  assert (Htry : sample_try cfg dn ns w = Return (fzero, JArr [])).
  { unfold sample_try. rewrite Hq. cbn [mbind outcome_bind py_get].
    destruct Hkeys as [-> | (m' & -> & Hres)]; cbn [default from_option id py_get].
    - rewrite lookup_empty. reflexivity.
    - rewrite Hres. reflexivity. }
  unfold result_of, trace_of. rewrite sampler_run, Htry. cbn [fst snd].
  split; [reflexivity|].
  change (printed (Invoke f_get_average_cpu_for_deployment
                   :: trace_of (query_prometheus cfg (prom_query dn ns)) w ++ []))
    with (printed (trace_of (query_prometheus cfg (prom_query dn ns)) w ++ [])).
  rewrite app_nil_r. apply query_prints_nothing.
Qed.

Lemma missing_keys_are_no_data_witness :
  result_of (get_average_cpu_for_deployment (Demo.cfg true false) "myapp" "default")
    (Demo.world_of
       (Return (Response 200 EmptyString (Return (JObj {[ "status" := JStr "success" ]}))))
       (Demo.hook 200) (Return tt) (Return "4b825dc") (Return tt)
       (Demo.values_file Demo.values_yaml) (Return tt) (Return "url"))
  = Return (fzero, JArr []).
Proof.
  eapply proj1.
  eapply (missing_keys_are_no_data (Demo.cfg true false) "myapp" "default" _
            {[ "status" := JStr "success" ]}).
  - vm_compute. reflexivity.
  - left. reflexivity.
Defined.

(** Trailing slashes of the configured address do not matter: the query goes
    to the address without them followed by "/api/v1/query", so an address
    and the same address with one more slash give the same run. *)
Theorem query_url_ignores_trailing_slash {F} `{PyFloat F} (cfg cfg' : config F)
    (u q : string) (w : world F) :
  PROM_URL cfg = Some u →
  u ≠ EmptyString →
  PROM_URL cfg' = Some (u +:+ "/") →
  query_prometheus cfg q w = query_prometheus cfg' q w ∧
  trace_of (query_prometheus cfg q) w
  = [Invoke f_query_prometheus; HttpGet (PyStr.rstrip "/" u +:+ "/api/v1/query") q].
Proof.
  intros Hu Hne Hu'. unfold query_prometheus. rewrite Hu, Hu'.
  assert (PyStr.truthy (Some u) = true) as -> by (destruct u; [congruence|reflexivity]).
  assert (PyStr.truthy (Some (u +:+ "/")) = true) as -> by (destruct u; reflexivity).
  cbn [negb default from_option id]. cbv zeta. rewrite rstrip_snoc.
  split; [reflexivity|].
  rewrite trace_emit_bind, trace_extcall_bind.
  destruct (requests_get w) as [r|e]; [|reflexivity].
  rewrite trace_lift_bind. destruct (raise_for_status r); reflexivity.
Qed.

Lemma query_url_ignores_trailing_slash_witness :
  trace_of (query_prometheus (Demo.cfg true false) "up") Demo.calm
  = [Invoke f_query_prometheus; HttpGet "http://prometheus:9090/api/v1/query" "up"].
Proof.
  apply (query_url_ignores_trailing_slash (Demo.cfg true false)
           {| PROM_URL := Some "http://prometheus:9090//"; NAMESPACE := "default";
              DEPLOYMENT_NAME := "myapp"; SLACK_WEBHOOK := None; GITHUB_TOKEN := None;
              GITHUB_REPO := None; DRY_RUN := true; AUTO_APPLY := false;
              HELM_VALUES_PATH := "values.yaml"; IMAGE_REPO := "myapp";
              CPU_THRESHOLD := 1 # 2 |}
           "http://prometheus:9090/" "up" Demo.calm); [reflexivity|discriminate|reflexivity].
Defined.

(** ** A metric source that fails *)

Section Outage.
Context {F : Type} `{PyFloat F}.
Variable cfg : config F.
Implicit Types (w : world F).



End Outage.


